(** * Order builders of the Binance futures bot: a shallow embedding

    The Python sources under [src/] ([basic_bot.py], [market_orders.py],
    [limit_orders.py], [advanced/stop_limit.py], [advanced/oco.py],
    [advanced/twap.py], [advanced/grid.py]) are embedded as Rocq functions.

    - Python [float] is IEEE 754 binary64: Rocq's primitive [float], whose
      operations the kernel evaluates and [FloatAxioms] specifies.
    - Python [int] is unbounded: [Z].  Mixing an [int] into float arithmetic
      converts it first, which raises [OverflowError] when it is too large.
    - The exchange client and [time.sleep] are the environment: every call is
      answered by a function of the interaction log so far, and the call with
      its answer is appended to the log.
    - An exception is an outcome [Raise e]; [try ... except Exception] is
      [try_except].  Logger calls neither raise nor touch the exchange and are
      left out.
    - Strings are ASCII: [str.upper] and [str.isupper] are modelled on the
      letters [a-z] and [A-Z]. *)

From Stdlib Require Import ZArith List Bool String Ascii Lia QArith Qabs.
From Stdlib Require Import Floats.
Import ListNotations.
Set Warnings "-inexact-float".
Open Scope Z_scope.

(** ** Exceptions and outcomes *)

Inductive exn : Type :=
| BinanceAPIException (code : Z)
| BinanceOrderException
| OverflowError
| ZeroDivisionError
| OtherException.

Inductive Outcome (A : Type) : Type :=
| Return (a : A)
| Raise (e : exn).
Arguments Return {A} a.
Arguments Raise {A} e.

Definition outcome_bind {A B : Type} (o : Outcome A) (k : A -> Outcome B) : Outcome B :=
  match o with
  | Return a => k a
  | Raise e => Raise e
  end.

Definition raises {A : Type} (o : Outcome A) : bool :=
  match o with
  | Return _ => false
  | Raise _ => true
  end.

(** ** Python numbers *)

Module PyNum.

Definition sf_is_infinity (x : spec_float) : bool :=
  match x with
  | S754_infinity _ => true
  | _ => false
  end.

(** The nearest binary64 value of an integer, ties to even. *)
Definition int_to_sf (z : Z) : spec_float := binary_normalize prec emax z 0 false.

(** Integers of this magnitude and above round to 2^1024:
    [float(n)] raises [OverflowError] for them. *)
Definition float_max_int : Z := 2 ^ 1024 - 2 ^ 970.

(** The implicit conversion of an [int] operand of float arithmetic. *)
Definition int_to_float (z : Z) : Outcome float :=
  if Z.abs z <? float_max_int then Return (SF2Prim (int_to_sf z))
  else Raise OverflowError.

Definition int_as_sf (z : Z) : spec_float :=
  match z with
  | Z0 => S754_zero false
  | Zpos p => S754_finite false p 0
  | Zneg p => S754_finite true p 0
  end.

(** [a / b] on two [int]s: the correctly rounded quotient. *)
Definition int_truediv (a b : Z) : Outcome float :=
  if b =? 0 then Raise ZeroDivisionError
  else
    let q := SF64div (int_as_sf a) (int_as_sf b) in
    if sf_is_infinity q then Raise OverflowError else Return (SF2Prim q).

(** [x / n] with [x] a float and [n] an [int]. *)
Definition float_div_int (x : float) (n : Z) : Outcome float :=
  outcome_bind (int_to_float n) (fun nf => Return (x / nf)%float).

(** [a / d] rounded to the nearest integer, ties to the even one. *)
Definition round_half_even (a d : Z) : Z :=
  let q := a / d in
  let r := a mod d in
  match (2 * r) ?= d with
  | Lt => q
  | Gt => q + 1
  | Eq => if Z.even q then q else q + 1
  end.

Definition NDIGITS_MAX : Z := 323.
Definition NDIGITS_MIN : Z := -308.

(** [round(x, ndigits)] for a finite nonzero [x = (-1)^s * m * 2^e]: the
    exact value is rounded half-even to a multiple of [10^-ndigits], and that
    decimal is converted to the nearest float. *)
Definition double_round (s : bool) (m : positive) (e : Z) (ndigits : Z) : Outcome float :=
  let scaled_num := if 0 <=? ndigits then Zpos m * 10 ^ ndigits else Zpos m in
  let scaled_den := if 0 <=? ndigits then 1 else 10 ^ (- ndigits) in
  let num := if 0 <=? e then scaled_num * 2 ^ e else scaled_num in
  let den := if 0 <=? e then scaled_den else scaled_den * 2 ^ (- e) in
  match round_half_even num den with
  | Zpos kp =>
      if 0 <=? ndigits then
        Return (SF2Prim (SF64div (S754_finite s kp 0) (int_as_sf (10 ^ ndigits))))
      else
        let r := int_to_sf (Zpos kp * 10 ^ (- ndigits)) in
        if sf_is_infinity r then Raise OverflowError
        else Return (SF2Prim (if s then SFopp r else r))
  | _ => Return (SF2Prim (S754_zero s))
  end.

(** The builtin [round(x, ndigits)] on a float. *)
Definition py_round (x : float) (ndigits : Z) : Outcome float :=
  match Prim2SF x with
  | S754_finite s m e =>
      if NDIGITS_MAX <? ndigits then Return x
      else if ndigits <? NDIGITS_MIN then Return (0 * x)%float
      else double_round s m e ndigits
  | _ => Return x
  end.

(** [range(n)] *)
Definition range (n : Z) : list Z := map Z.of_nat (seq 0 (Z.to_nat n)).

End PyNum.
Import PyNum.

(** ** Python strings (ASCII) *)

Module PyStr.

Definition is_lower (c : ascii) : bool :=
  let n := nat_of_ascii c in (97 <=? n)%nat && (n <=? 122)%nat.

Definition is_upper (c : ascii) : bool :=
  let n := nat_of_ascii c in (65 <=? n)%nat && (n <=? 90)%nat.

Definition upper_char (c : ascii) : ascii :=
  if is_lower c then ascii_of_nat (nat_of_ascii c - 32) else c.

(** [s.upper()] *)
Fixpoint upper (s : string) : string :=
  match s with
  | EmptyString => EmptyString
  | String c s' => String (upper_char c) (upper s')
  end.

Fixpoint any_char (p : ascii -> bool) (s : string) : bool :=
  match s with
  | EmptyString => false
  | String c s' => p c || any_char p s'
  end.

(** [s.isupper()]: some cased character, and no lowercase one. *)
Definition isupper (s : string) : bool :=
  any_char is_upper s && negb (any_char is_lower s).

(** [sub in s] *)
Fixpoint contains (sub s : string) : bool :=
  prefix sub s ||
  match s with
  | EmptyString => false
  | String _ s' => contains sub s'
  end.

(** [s in l] for a list of strings. *)
Definition str_in (s : string) (l : list string) : bool :=
  existsb (String.eqb s) l.

End PyStr.
Import PyStr.

(** ** The exchange and the interaction log *)

Record SymbolInfo : Type := {
  info_symbol : string;
  quantityPrecision : option Z;
  pricePrecision : option Z
}.

(** The keyword arguments of [futures_create_order]. *)
Record OrderRequest : Type := {
  req_symbol : string;
  req_side : string;
  req_type : string;
  req_quantity : float;
  req_price : option float;
  req_stopPrice : option float;
  req_timeInForce : option string;
  req_reduceOnly : option bool
}.

(** The response mapping of the exchange; ['orderId'] may be missing. *)
Record OrderResponse : Type := {
  orderId : option Z;
  resp_status : string
}.

Definition Response (A : Type) : Type := (exn + A)%type.

Inductive Event : Type :=
| EvExchangeInfo (r : Response (list SymbolInfo))
| EvTicker (symbol : string) (r : Response float)
| EvCreateOrder (req : OrderRequest) (r : Response OrderResponse)
| EvCancelOrder (symbol : string) (oid : Z) (r : Response unit)
| EvAccount (r : Response unit)
| EvServerTime (r : Response Z)
| EvSleep (seconds : float) (r : Response unit).

Definition Log : Type := list Event.

(** What the process talks to.  [futures_symbol_ticker] stands for the
    ticker call together with [float(ticker['price'])]. *)
Record Env : Type := {
  futures_exchange_info : Log -> Response (list SymbolInfo);
  futures_symbol_ticker : Log -> string -> Response float;
  futures_create_order : Log -> OrderRequest -> Response OrderResponse;
  futures_cancel_order : Log -> string -> Z -> Response unit;
  futures_account : Log -> Response unit;
  requests_get_time : Log -> Response Z;
  time_sleep : Log -> float -> Response unit
}.

(** ** The monad of the builders *)

Definition M (A : Type) : Type := Env -> Log -> Outcome A * Log.

Definition ret {A : Type} (a : A) : M A := fun _ log => (Return a, log).

Definition bind {A B : Type} (m : M A) (k : A -> M B) : M B :=
  fun env log =>
    match m env log with
    | (Return a, log') => k a env log'
    | (Raise e, log') => (Raise e, log')
    end.

Definition lift {A : Type} (o : Outcome A) : M A := fun _ log => (o, log).

Definition try_except {A : Type} (m : M A) (handler : exn -> M A) : M A :=
  fun env log =>
    match m env log with
    | (Return a, log') => (Return a, log')
    | (Raise e, log') => handler e env log'
    end.

Definition perform {A : Type} (ask : Env -> Log -> Response A) (ev : Response A -> Event) : M A :=
  fun env log =>
    let r := ask env log in
    (match r with inl e => Raise e | inr a => Return a end, log ++ [ev r]).

Declare Scope monad_scope.
Delimit Scope monad_scope with monad.
Notation "x <- m ;; k" := (bind m (fun x => k))
  (at level 61, m at next level, right associativity) : monad_scope.
Notation "m ;;; k" := (bind m (fun _ => k))
  (at level 61, right associativity) : monad_scope.
Open Scope monad_scope.

Definition exchange_info : M (list SymbolInfo) :=
  perform futures_exchange_info EvExchangeInfo.
Definition symbol_ticker (symbol : string) : M float :=
  perform (fun env log => futures_symbol_ticker env log symbol) (EvTicker symbol).
Definition create_order (req : OrderRequest) : M OrderResponse :=
  perform (fun env log => futures_create_order env log req) (EvCreateOrder req).
Definition cancel_order (symbol : string) (oid : Z) : M unit :=
  perform (fun env log => futures_cancel_order env log symbol oid) (EvCancelOrder symbol oid).
Definition server_time : M Z :=
  perform requests_get_time EvServerTime.
Definition sleep (seconds : float) : M unit :=
  perform (fun env log => time_sleep env log seconds) (EvSleep seconds).

(** ** basic_bot.py *)

(** [BasicBot._sync_server_time]: every failure is swallowed. *)
Definition _sync_server_time : M unit :=
  try_except (_ <- server_time ;; ret tt) (fun _ => ret tt).


Definition validate_symbol (symbol : string) : bool :=
  match symbol with
  | EmptyString => false
  | _ => isupper symbol && contains "USDT" symbol
  end.

Definition validate_quantity (quantity : float) : bool := (0 <? quantity)%float.

Definition validate_price (price : float) : bool := (0 <? price)%float.

Definition find_symbol (symbol : string) (symbols : list SymbolInfo) : option SymbolInfo :=
  find (fun s => String.eqb (info_symbol s) symbol) symbols.

Definition get_symbol_info (symbol : string) : M (option SymbolInfo) :=
  try_except
    (symbols <- exchange_info ;; ret (find_symbol symbol symbols))
    (fun _ => ret None).

Definition dict_get (field : option Z) (default : Z) : Z :=
  match field with
  | Some v => v
  | None => default
  end.

Definition format_quantity (symbol : string) (quantity : float) : M (option float) :=
  symbol_info <- get_symbol_info symbol ;;
  match symbol_info with
  | None => ret None
  | Some info =>
      r <- lift (py_round quantity (dict_get (quantityPrecision info) 8)) ;;
      ret (Some r)
  end.

Definition format_price (symbol : string) (price : float) : M (option float) :=
  symbol_info <- get_symbol_info symbol ;;
  match symbol_info with
  | None => ret None
  | Some info =>
      r <- lift (py_round price (dict_get (pricePrecision info) 8)) ;;
      ret (Some r)
  end.

Definition valid_side (side : string) : bool := str_in (upper side) ["BUY"; "SELL"]%string.

(** ** market_orders.py *)

Definition place_market_order (symbol side : string) (quantity : float) (reduce_only : bool)
  : M (option OrderResponse) :=
  if negb (validate_symbol symbol) then ret None
  else if negb (valid_side side) then ret None
  else if negb (validate_quantity quantity) then ret None
  else
    formatted_quantity <- format_quantity symbol quantity ;;
    match formatted_quantity with
    | None => ret None
    | Some fq =>
        try_except
          (order <- create_order
             {| req_symbol := symbol; req_side := upper side; req_type := "MARKET";
                req_quantity := fq; req_price := None; req_stopPrice := None;
                req_timeInForce := None; req_reduceOnly := Some reduce_only |} ;;
           ret (Some order))
          (fun _ => ret None)
    end.

(** ** limit_orders.py *)

Definition valid_time_in_force (time_in_force : string) : bool :=
  str_in time_in_force ["GTC"; "IOC"; "FOK"]%string.

Definition place_limit_order (symbol side : string) (quantity price : float)
    (time_in_force : string) (reduce_only : bool) : M (option OrderResponse) :=
  if negb (validate_symbol symbol) then ret None
  else if negb (valid_side side) then ret None
  else if negb (validate_quantity quantity) then ret None
  else if negb (validate_price price) then ret None
  else if negb (valid_time_in_force time_in_force) then ret None
  else
    formatted_quantity <- format_quantity symbol quantity ;;
    formatted_price <- format_price symbol price ;;
    match formatted_quantity, formatted_price with
    | Some fq, Some fp =>
        try_except
          (order <- create_order
             {| req_symbol := symbol; req_side := upper side; req_type := "LIMIT";
                req_quantity := fq; req_price := Some fp; req_stopPrice := None;
                req_timeInForce := Some time_in_force; req_reduceOnly := Some reduce_only |} ;;
           ret (Some order))
          (fun _ => ret None)
    | _, _ => ret None
    end.

(** ** advanced/stop_limit.py *)

Definition place_stop_limit_order (symbol side : string) (quantity stop_price limit_price : float)
    (reduce_only : bool) : M (option OrderResponse) :=
  if negb (validate_symbol symbol) then ret None
  else if negb (valid_side side) then ret None
  else if negb (validate_quantity quantity) then ret None
  else if negb (validate_price stop_price) || negb (validate_price limit_price) then ret None
  else
    formatted_quantity <- format_quantity symbol quantity ;;
    formatted_stop_price <- format_price symbol stop_price ;;
    formatted_limit_price <- format_price symbol limit_price ;;
    match formatted_quantity, formatted_stop_price, formatted_limit_price with
    | Some fq, Some fsp, Some flp =>
        try_except
          (order <- create_order
             {| req_symbol := symbol; req_side := upper side; req_type := "STOP";
                req_quantity := fq; req_price := Some flp; req_stopPrice := Some fsp;
                req_timeInForce := Some "GTC"%string; req_reduceOnly := Some reduce_only |} ;;
           ret (Some order))
          (fun _ => ret None)
    | _, _, _ => ret None
    end.

(** ** advanced/oco.py *)

Definition OrderDict : Type := list (string * OrderResponse).

(** [_cancel_oco_orders]: one guarded cancellation per recorded order. *)
Fixpoint _cancel_oco_orders (symbol : string) (orders : OrderDict) : M unit :=
  match orders with
  | [] => ret tt
  | (_, order) :: rest =>
      try_except
        (match orderId order with
         | Some oid => cancel_order symbol oid
         | None => ret tt
         end)
        (fun _ => ret tt) ;;;
      _cancel_oco_orders symbol rest
  end.

Definition opposite_side (side : string) : string :=
  if String.eqb (upper side) "BUY" then "SELL"%string else "BUY"%string.

Definition oco_stop_request (symbol side : string) (fq fsp : float) (reduce_only : bool)
  : OrderRequest :=
  {| req_symbol := symbol; req_side := opposite_side side; req_type := "STOP_MARKET";
     req_quantity := fq; req_price := None; req_stopPrice := Some fsp;
     req_timeInForce := None; req_reduceOnly := Some reduce_only |}.

Definition oco_take_profit_request (symbol side : string) (fq flp : float) (reduce_only : bool)
  : OrderRequest :=
  {| req_symbol := symbol; req_side := opposite_side side; req_type := "TAKE_PROFIT_MARKET";
     req_quantity := fq; req_price := None; req_stopPrice := Some flp;
     req_timeInForce := None; req_reduceOnly := Some reduce_only |}.

(** The body of the [try]: the local [orders] as it stands when the block
    is left, and how the block is left. *)
Definition oco_try (symbol side : string) (fq fsp flp : float) (reduce_only : bool)
  : Env -> Log -> (OrderDict * Outcome OrderDict) * Log :=
  fun env log =>
    match create_order (oco_stop_request symbol side fq fsp reduce_only) env log with
    | (Raise e, log1) => (([], Raise e), log1)
    | (Return stop_order, log1) =>
        let orders := [("stop_loss"%string, stop_order)] in
        match create_order (oco_take_profit_request symbol side fq flp reduce_only) env log1 with
        | (Raise e, log2) => ((orders, Raise e), log2)
        | (Return take_profit_order, log2) =>
            let orders := orders ++ [("take_profit"%string, take_profit_order)] in
            ((orders, Return orders), log2)
        end
    end.

Definition place_oco_order (symbol side : string) (quantity price stop_price limit_price : float)
    (reduce_only : bool) : M (option OrderDict) :=
  if negb (validate_symbol symbol) then ret None
  else if negb (valid_side side) then ret None
  else if negb (validate_quantity quantity) then ret None
  else if negb (forallb validate_price [price; stop_price; limit_price]) then ret None
  else
    formatted_quantity <- format_quantity symbol quantity ;;
    formatted_stop_price <- format_price symbol stop_price ;;
    formatted_limit_price <- format_price symbol limit_price ;;
    match formatted_quantity, formatted_stop_price, formatted_limit_price with
    | Some fq, Some fsp, Some flp =>
        fun env log =>
          match oco_try symbol side fq fsp flp reduce_only env log with
          | ((_, Return orders), log') => (Return (Some orders), log')
          | ((orders, Raise _), log') =>
              (_cancel_oco_orders symbol orders ;;; ret None) env log'
          end
    | _, _, _ => ret None
    end.

(** ** advanced/twap.py *)

Definition twap_market_request (symbol side : string) (fq : float) : OrderRequest :=
  {| req_symbol := symbol; req_side := upper side; req_type := "MARKET";
     req_quantity := fq; req_price := None; req_stopPrice := None;
     req_timeInForce := None; req_reduceOnly := None |}.

Definition twap_limit_request (symbol side : string) (fq fp : float) : OrderRequest :=
  {| req_symbol := symbol; req_side := upper side; req_type := "LIMIT";
     req_quantity := fq; req_price := Some fp; req_stopPrice := None;
     req_timeInForce := Some "IOC"%string; req_reduceOnly := None |}.

(** The order of one interval; [None] is the [continue] after a failed
    price formatting. *)
Definition twap_interval_order (symbol side order_type : string) (fq : float)
  : M (option OrderResponse) :=
  if String.eqb order_type "MARKET" then
    order <- create_order (twap_market_request symbol side fq) ;;
    ret (Some order)
  else
    current_price <- symbol_ticker symbol ;;
    let limit_price :=
      if String.eqb (upper side) "BUY" then (current_price * 0.999)%float
      else (current_price * 1.001)%float in
    formatted_price <- format_price symbol limit_price ;;
    match formatted_price with
    | None => ret None
    | Some fp =>
        order <- create_order (twap_limit_request symbol side fq fp) ;;
        ret (Some order)
    end.

(** One iteration of the loop on the local [orders]. *)
Definition twap_body (symbol side order_type : string) (fq interval_seconds : float)
    (num_intervals i : Z) (orders : list OrderResponse)
  : Env -> Log -> (list OrderResponse * Outcome unit) * Log :=
  fun env log =>
    match twap_interval_order symbol side order_type fq env log with
    | (Raise e, log1) => ((orders, Raise e), log1)
    | (Return None, log1) => ((orders, Return tt), log1)
    | (Return (Some order), log1) =>
        let orders := orders ++ [order] in
        if i <? num_intervals - 1 then
          match sleep interval_seconds env log1 with
          | (Raise e, log2) => ((orders, Raise e), log2)
          | (Return _, log2) => ((orders, Return tt), log2)
          end
        else ((orders, Return tt), log1)
    end.

(** A [for] loop over a local variable that survives an exception. *)
Fixpoint for_each {X S : Type} (body : X -> S -> Env -> Log -> (S * Outcome unit) * Log)
    (xs : list X) (s : S) (env : Env) (log : Log) : (S * Outcome unit) * Log :=
  match xs with
  | [] => ((s, Return tt), log)
  | x :: xs' =>
      match body x s env log with
      | ((s', Return _), log') => for_each body xs' s' env log'
      | ((s', Raise e), log') => ((s', Raise e), log')
      end
  end.

Definition valid_twap_order_type (order_type : string) : bool :=
  str_in order_type ["MARKET"; "LIMIT"]%string.

Definition place_twap_order (symbol side : string) (total_quantity : float)
    (duration_minutes num_intervals : Z) (order_type : string)
  : M (option (list OrderResponse)) :=
  if negb (validate_symbol symbol) then ret None
  else if negb (valid_side side) then ret None
  else if negb (validate_quantity total_quantity) then ret None
  else if (duration_minutes <=? 0) || (num_intervals <=? 0) then ret None
  else if negb (valid_twap_order_type order_type) then ret None
  else
    interval_quantity <- lift (float_div_int total_quantity num_intervals) ;;
    interval_seconds <- lift (int_truediv (duration_minutes * 60) num_intervals) ;;
    formatted_interval_quantity <- format_quantity symbol interval_quantity ;;
    match formatted_interval_quantity with
    | None => ret None
    | Some fq =>
        fun env log =>
          match for_each (twap_body symbol side order_type fq interval_seconds num_intervals)
                  (range num_intervals) [] env log with
          | ((orders, Return _), log') => (Return (Some orders), log')
          | ((orders, Raise _), log') =>
              (Return (match orders with [] => None | _ => Some orders end), log')
          end
    end.

(** ** advanced/grid.py *)

(** The arithmetic of the price ladder, so that the same comprehension can
    be read in binary64 (what runs) and in exact rationals. *)
Class LadderArith (A : Type) : Type := {
  la_add : A -> A -> A;
  la_sub : A -> A -> A;
  la_mul : A -> A -> A;
  la_div : A -> A -> A;
  la_of_int : Z -> Outcome A
}.

#[export] Instance float_arith : LadderArith float := {
  la_add := PrimFloat.add;
  la_sub := PrimFloat.sub;
  la_mul := PrimFloat.mul;
  la_div := PrimFloat.div;
  la_of_int := int_to_float
}.

#[export] Instance exact_arith : LadderArith Q := {
  la_add := Qplus;
  la_sub := Qminus;
  la_mul := Qmult;
  la_div := Qdiv;
  la_of_int := fun z => Return (inject_Z z)
}.

(** A list comprehension whose element expression may raise. *)
Fixpoint comprehension {X A : Type} (f : X -> Outcome A) (xs : list X) : Outcome (list A) :=
  match xs with
  | [] => Return []
  | x :: xs' =>
      outcome_bind (f x) (fun a =>
      outcome_bind (comprehension f xs') (fun l => Return (a :: l)))
  end.

(** [price_step] and [grid_prices] of [place_grid_orders]. *)
Definition grid_ladder {A : Type} `{LadderArith A} (lower_price upper_price : A) (grid_levels : Z)
  : Outcome (list A) :=
  outcome_bind (la_of_int grid_levels) (fun n =>
    let price_step := la_div (la_sub upper_price lower_price) n in
    comprehension
      (fun i => outcome_bind (la_of_int i) (fun fi =>
                  Return (la_add lower_price (la_mul fi price_step))))
      (range (grid_levels + 1))).

Definition grid_prices (lower_price upper_price : float) (grid_levels : Z) : Outcome (list float) :=
  grid_ladder lower_price upper_price grid_levels.

Definition grid_request (symbol side order_type : string) (fq fp : float) : OrderRequest :=
  if String.eqb order_type "LIMIT" then
    {| req_symbol := symbol; req_side := side; req_type := "LIMIT";
       req_quantity := fq; req_price := Some fp; req_stopPrice := None;
       req_timeInForce := Some "GTC"%string; req_reduceOnly := None |}
  else
    {| req_symbol := symbol; req_side := side; req_type := "MARKET";
       req_quantity := fq; req_price := None; req_stopPrice := None;
       req_timeInForce := None; req_reduceOnly := None |}.

(** What one loop does with a price that passed its comparison. *)
Definition grid_submit (symbol side order_type : string) (fq : float)
    (price : float) (orders : list OrderResponse)
  : Env -> Log -> (list OrderResponse * Outcome unit) * Log :=
  fun env log =>
    match format_price symbol price env log with
    | (Raise e, log1) => ((orders, Raise e), log1)
    | (Return None, log1) => ((orders, Return tt), log1)
    | (Return (Some fp), log1) =>
        match create_order (grid_request symbol side order_type fq fp) env log1 with
        | (Raise e, log2) => ((orders, Raise e), log2)
        | (Return order, log2) => ((orders ++ [order], Return tt), log2)
        end
    end.

(** The body of the first loop: [if price < current_price: ...]. *)
Definition grid_buy_body (symbol order_type : string) (fq current_price : float)
    (price : float) (orders : list OrderResponse)
  : Env -> Log -> (list OrderResponse * Outcome unit) * Log :=
  fun env log =>
    if (price <? current_price)%float
    then grid_submit symbol "BUY" order_type fq price orders env log
    else ((orders, Return tt), log).

(** The body of the second loop: [if price > current_price: ...]. *)
Definition grid_sell_body (symbol order_type : string) (fq current_price : float)
    (price : float) (orders : list OrderResponse)
  : Env -> Log -> (list OrderResponse * Outcome unit) * Log :=
  fun env log =>
    if (current_price <? price)%float
    then grid_submit symbol "SELL" order_type fq price orders env log
    else ((orders, Return tt), log).

Record GridResult : Type := {
  buy_orders : list OrderResponse;
  sell_orders : list OrderResponse;
  total_buy_orders : option Z;
  total_sell_orders : option Z
}.

Definition grid_full (buy sell : list OrderResponse) : GridResult :=
  {| buy_orders := buy; sell_orders := sell;
     total_buy_orders := Some (Z.of_nat (List.length buy));
     total_sell_orders := Some (Z.of_nat (List.length sell)) |}.

(** The value of the [except] branches. *)
Definition grid_partial (buy sell : list OrderResponse) : option GridResult :=
  match buy, sell with
  | [], [] => None
  | _, _ => Some {| buy_orders := buy; sell_orders := sell;
                    total_buy_orders := None; total_sell_orders := None |}
  end.

(** The [try] block once the ladder and the quantity are there. *)
Definition grid_try (symbol order_type : string) (fq : float) (prices : list float)
  : M (option GridResult) :=
  fun env log =>
    match symbol_ticker symbol env log with
    | (Raise _, log0) => (Return (grid_partial [] []), log0)
    | (Return current_price, log0) =>
        match for_each (grid_buy_body symbol order_type fq current_price) prices [] env log0 with
        | ((buy, Raise _), log1) => (Return (grid_partial buy []), log1)
        | ((buy, Return _), log1) =>
            match for_each (grid_sell_body symbol order_type fq current_price) prices [] env log1 with
            | ((sell, Raise _), log2) => (Return (grid_partial buy sell), log2)
            | ((sell, Return _), log2) => (Return (Some (grid_full buy sell)), log2)
            end
        end
    end.

Definition valid_grid_order_type (order_type : string) : bool :=
  str_in order_type ["LIMIT"; "MARKET"]%string.

Definition place_grid_orders (symbol : string) (lower_price upper_price : float)
    (grid_levels : Z) (quantity_per_grid : float) (order_type : string)
  : M (option GridResult) :=
  if negb (validate_symbol symbol) then ret None
  else if negb (validate_price lower_price) || negb (validate_price upper_price) then ret None
  else if (upper_price <=? lower_price)%float then ret None
  else if grid_levels <=? 0 then ret None
  else if negb (validate_quantity quantity_per_grid) then ret None
  else if negb (valid_grid_order_type order_type) then ret None
  else
    prices <- lift (grid_prices lower_price upper_price grid_levels) ;;
    formatted_quantity <- format_quantity symbol quantity_per_grid ;;
    match formatted_quantity with
    | None => ret None
    | Some fq => grid_try symbol order_type fq prices
    end.

(** ** Reading the interaction log *)

(** What a call added to the log it started from. *)
Definition new_events (log0 log' : Log) : Log := skipn (List.length log0) log'.

(** The answers to the order submissions, in order. *)
Definition order_outcomes (log : Log) : list (Response OrderResponse) :=
  flat_map (fun ev => match ev with EvCreateOrder _ r => [r] | _ => [] end) log.

(** The submitted order requests, in order. *)
Definition order_requests (log : Log) : list OrderRequest :=
  flat_map (fun ev => match ev with EvCreateOrder req _ => [req] | _ => [] end) log.

Definition successes {A : Type} (rs : list (Response A)) : list A :=
  flat_map (fun r => match r with inr a => [a] | inl _ => [] end) rs.

(** A metadata lookup for [symbol] that came back empty. *)
Definition lookup_failed (symbol : string) (ev : Event) : bool :=
  match ev with
  | EvExchangeInfo (inl _) => true
  | EvExchangeInfo (inr symbols) =>
      match find_symbol symbol symbols with
      | None => true
      | Some _ => false
      end
  | _ => false
  end.

Definition nonneg_precisions (info : SymbolInfo) : bool :=
  (0 <=? dict_get (quantityPrecision info) 8) && (0 <=? dict_get (pricePrecision info) 8).

(** Nothing went wrong at this event, a failed metadata lookup apart: no
    call raised, and the precisions that were looked up are not negative. *)
Definition undisturbed (symbol : string) (ev : Event) : bool :=
  match ev with
  | EvExchangeInfo (inl _) => true
  | EvExchangeInfo (inr symbols) =>
      match find_symbol symbol symbols with
      | None => true
      | Some info => nonneg_precisions info
      end
  | EvTicker _ (inr _) => true
  | EvCreateOrder _ (inr _) => true
  | EvCancelOrder _ _ (inr _) => true
  | EvAccount (inr _) => true
  | EvServerTime (inr _) => true
  | EvSleep _ (inr _) => true
  | _ => false
  end.

Definition count_events (p : Event -> bool) (log : Log) : Z :=
  Z.of_nat (List.length (filter p log)).

(** ** A scripted exchange for concrete runs *)

Module Demo.

Definition btcusdt : SymbolInfo :=
  {| info_symbol := "BTCUSDT"; quantityPrecision := Some 3; pricePrecision := Some 2 |}.

Definition submissions (log : Log) : nat := List.length (order_outcomes log).

Definition lookups (log : Log) : nat :=
  List.length (filter (fun ev => match ev with EvExchangeInfo _ => true | _ => false end) log).

(** The exchange lists BTCUSDT, quotes [price], and accepts every order but
    the one numbered [reject] (from 0), which it answers with an API error;
    the metadata lookup numbered [blackout] (from 0) finds no symbol. *)
Definition exchange (price : float) (reject blackout : option nat) : Env :=
  {| futures_exchange_info := fun log =>
       match blackout with
       | Some k => if Nat.eqb k (lookups log) then inr [] else inr [btcusdt]
       | None => inr [btcusdt]
       end;
     futures_symbol_ticker := fun _ _ => inr price;
     futures_create_order := fun log _ =>
       match reject with
       | Some k =>
           if Nat.eqb k (submissions log) then inl (BinanceAPIException (-2019))
           else inr {| orderId := Some (Z.of_nat (submissions log)); resp_status := "NEW" |}
       | None => inr {| orderId := Some (Z.of_nat (submissions log)); resp_status := "NEW" |}
       end;
     futures_cancel_order := fun _ _ _ => inr tt;
     futures_account := fun _ => inr tt;
     requests_get_time := fun _ => inr 0;
     time_sleep := fun _ _ => inr tt |}.

Definition healthy : Env := exchange 50000 None None.

End Demo.


(** ** The buy and sell shorthands *)







(** ** The clock checks: time_sync.py and [BasicBot._sync_server_time] *)

(** Both read the server time with one request and the local clock once;
    [local_time] is that reading, [int(time.time() * 1000)]. *)

Inductive SyncMessage : Type :=
| TimeDifferenceDetected (time_diff : Z)
| ConsiderSyncing
| TimeSynchronized (time_diff : Z)
| CouldNotSync (e : exn)
| ContinuingAnyway.

Inductive LogRecord : Type :=
| LogWarning (message : SyncMessage)
| LogInfo (message : SyncMessage).

(** [BasicBot._sync_server_time] with the records it hands to the logger. *)
Definition _sync_server_time_records (local_time : Z) : M (list LogRecord) :=
  try_except
    (server <- server_time ;;
     let time_diff := server - local_time in
     if 1000 <? Z.abs time_diff
     then ret [LogWarning (TimeDifferenceDetected time_diff); LogWarning ConsiderSyncing]
     else ret [LogInfo (TimeSynchronized time_diff)])
    (fun e => ret [LogWarning (CouldNotSync e); LogWarning ContinuingAnyway]).

(** The dictionary [check_time_sync] returns; a key that is not set is
    [None]. *)
Record SyncReport : Type := {
  synced : bool;
  time_diff_ms : option Z;
  report_server_time : option Z;
  report_local_time : option Z;
  error : option exn;
  status : string
}.

(** [time_sync.check_time_sync] *)
Definition check_time_sync (local_time : Z) : M SyncReport :=
  try_except
    (server <- server_time ;;
     let time_diff := server - local_time in
     ret {| synced := Z.abs time_diff <? 1000;
            time_diff_ms := Some time_diff;
            report_server_time := Some server;
            report_local_time := Some local_time;
            error := None;
            status := if Z.abs time_diff <? 1000 then "OK" else "OUT_OF_SYNC" |})
    (fun e =>
       ret {| synced := false;
              time_diff_ms := None;
              report_server_time := None;
              report_local_time := None;
              error := Some e;
              status := "ERROR" |}).
(** ** Vocabulary of the properties *)

Definition nonpositive (x : float) : Prop := (x <=? 0)%float = true.

Definition accepted {A : Type} (r : Response A) : bool :=
  match r with
  | inr _ => true
  | inl _ => false
  end.

Definition is_ticker (ev : Event) : bool :=
  match ev with
  | EvTicker _ _ => true
  | _ => false
  end.

(** What [format_quantity] and [format_price] make of the answer [r] to
    their metadata lookup. *)
Definition format_with (precision : SymbolInfo -> option Z) (x : float)
    (r : Response (list SymbolInfo)) (symbol : string) : Outcome (option float) :=
  match r with
  | inl _ => Return None
  | inr symbols =>
      match find_symbol symbol symbols with
      | None => Return None
      | Some info =>
          match py_round x (dict_get (precision info) 8) with
          | Return v => Return (Some v)
          | Raise e => Raise e
          end
      end
  end.

(** What a stretch [d] of the log says about [k] turns of the TWAP loop that
    took the local [orders] to [orders'] and ended as [out]. *)
Definition twap_stretch (symbol order_type : string) (fq : float) (k : nat)
    (orders orders' : list OrderResponse) (out : Outcome unit) (d : Log) : Prop :=
  orders' = orders ++ successes (order_outcomes d) /\
  (raises out = false -> forallb accepted (order_outcomes d) = true) /\
  Forall (fun req => req_quantity req = fq) (order_requests d) /\
  (forallb (undisturbed symbol) d = true ->
     raises out = false /\
     (List.length (order_outcomes d) + List.length (filter (lookup_failed symbol) d) = k)%nat /\
     (List.length (filter is_ticker d)
      = if String.eqb order_type "MARKET" then 0 else k)%nat).

(** The value [place_twap_order] makes of its loop. *)
Definition twap_result (orders : list OrderResponse) (out : Outcome unit)
  : option (list OrderResponse) :=
  match out, orders with
  | Raise _, [] => None
  | _, _ => Some orders
  end.

(** The ways a call of [place_twap_order] can go. *)
Inductive twap_run (env : Env) (log0 : Log) (symbol side : string) (total_quantity : float)
    (duration_minutes num_intervals : Z) (order_type : string)
  : Outcome (option (list OrderResponse)) -> Log -> Prop :=
| twap_invalid :
    twap_run env log0 symbol side total_quantity duration_minutes num_intervals order_type
      (Return None) log0
| twap_overflow e :
    twap_run env log0 symbol side total_quantity duration_minutes num_intervals order_type
      (Raise e) log0
| twap_unformatted nf res :
    int_to_float num_intervals = Return nf ->
    match format_with quantityPrecision (total_quantity / nf)
            (futures_exchange_info env log0) symbol with
    | Raise e => res = Raise e
    | Return None => res = Return None
    | Return (Some _) => False
    end ->
    twap_run env log0 symbol side total_quantity duration_minutes num_intervals order_type
      res (log0 ++ [EvExchangeInfo (futures_exchange_info env log0)])
| twap_looped nf fq orders out d :
    int_to_float num_intervals = Return nf ->
    0 < num_intervals ->
    format_with quantityPrecision (total_quantity / nf)
      (futures_exchange_info env log0) symbol = Return (Some fq) ->
    twap_stretch symbol order_type fq (Z.to_nat num_intervals) [] orders out d ->
    twap_run env log0 symbol side total_quantity duration_minutes num_intervals order_type
      (Return (twap_result orders out))
      (log0 ++ EvExchangeInfo (futures_exchange_info env log0) :: d).

(** *** Decimal rounding in exact arithmetic *)




(** *** The price ladder as the specification words it *)



(** Every precision the exchange reports is a non-negative integer. *)
Definition reports_nonneg_precisions (env : Env) : Prop :=
  forall (log : Log) (symbols : list SymbolInfo) (symbol : string) (info : SymbolInfo),
    futures_exchange_info env log = inr symbols ->
    find_symbol symbol symbols = Some info ->
    nonneg_precisions info = true.


(** The cancellations a stretch of the log holds, in order. *)
Definition cancellations (log : Log) : list (string * Z) :=
  flat_map (fun ev => match ev with EvCancelOrder symbol oid _ => [(symbol, oid)] | _ => [] end)
    log.

(** The durations of the pauses a stretch of the log holds, in order. *)
Definition sleeps (log : Log) : list float :=
  flat_map (fun ev => match ev with EvSleep seconds _ => [seconds] | _ => [] end) log.

(** The prices the ticker quoted in a stretch of the log, in order. *)
Definition quotes (log : Log) : list float :=
  flat_map (fun ev => match ev with EvTicker _ (inr price) => [price] | _ => [] end) log.

Definition is_lookup (ev : Event) : bool :=
  match ev with
  | EvExchangeInfo _ => true
  | _ => false
  end.

(** The answers to the order submissions on one side. *)
Definition outcomes_of_side (side : string) (log : Log) : list (Response OrderResponse) :=
  flat_map (fun ev =>
              match ev with
              | EvCreateOrder req r => if String.eqb (req_side req) side then [r] else []
              | _ => []
              end) log.

Definition option_list {A : Type} (o : option A) : list A :=
  match o with
  | Some a => [a]
  | None => []
  end.

(** The value a builder returned, [None] when it raised. *)
Definition returned {A : Type} (res : Outcome (option A)) : option A :=
  match res with
  | Return r => r
  | Raise _ => None
  end.

(** What a builder of one order may leave in the log: at most one order
    submission, whose response is the value returned when it was accepted,
    and neither a cancellation, nor a pause, nor a ticker fetch. *)
Definition single_order_contract (log0 : Log) (run : Outcome (option OrderResponse) * Log)
  : Prop :=
  let delta := new_events log0 (snd run) in
  successes (order_outcomes delta) = option_list (returned (fst run)) /\
  (List.length (order_outcomes delta) <= 1)%nat /\
  cancellations delta = [] /\
  sleeps delta = [] /\
  filter is_ticker delta = [].





(** Every pause in the log comes directly after an accepted order
    submission; [filled] says that the event before the log was one. *)
Fixpoint pauses_follow_fills (filled : bool) (d : Log) : bool :=
  match d with
  | [] => true
  | EvSleep _ _ :: d' => filled && pauses_follow_fills false d'
  | EvCreateOrder _ (inr _) :: d' => pauses_follow_fills true d'
  | _ :: d' => pauses_follow_fills false d'
  end.

(** The turns of the TWAP loop that are followed by a pause. *)
Definition paused_turns (num_intervals : Z) (xs : list Z) : list Z :=
  filter (fun i => i <? num_intervals - 1) xs.

(** What a stretch [d] of the log says about the pauses of the turns [xs]
    of the TWAP loop. *)
Definition twap_pacing (interval_seconds : float) (num_intervals : Z) (xs : list Z) (d : Log)
  : Prop :=
  pauses_follow_fills false d = true /\
  Forall (fun seconds => seconds = interval_seconds) (sleeps d) /\
  (List.length (successes (order_outcomes d)) <= List.length xs)%nat /\
  (List.length (sleeps d) <= List.length (paused_turns num_intervals xs))%nat /\
  (List.length (successes (order_outcomes d)) = List.length xs ->
   List.length (sleeps d) = List.length (paused_turns num_intervals xs)) /\
  cancellations d = [].

(** The factor the TWAP builder applies to the quoted price of a LIMIT
    interval. *)
Definition twap_price_factor (side : string) : float :=
  if String.eqb (upper side) "BUY" then 0.999%float else 1.001%float.

(** The requests the TWAP builder sends; [quoted] are the prices the ticker
    gave. *)
Definition twap_request_shape (symbol side order_type : string) (fq : float)
    (quoted : list float) (req : OrderRequest) : Prop :=
  req_symbol req = symbol /\ req_side req = upper side /\ req_quantity req = fq /\
  req_stopPrice req = None /\ req_reduceOnly req = None /\
  if String.eqb order_type "MARKET"
  then req_type req = "MARKET"%string /\ req_price req = None /\ req_timeInForce req = None
  else req_type req = "LIMIT"%string /\ req_timeInForce req = Some "IOC"%string /\
       exists (current_price : float) (precision : Z) (fp : float),
         In current_price quoted /\
         req_price req = Some fp /\
         py_round (current_price * twap_price_factor side) precision = Return fp.

(** The requests the grid builder sends on one side; [prices] are the
    ladder points it may price them at. *)
Definition grid_request_shape (symbol side order_type : string) (fq : float)
    (prices : list float) (req : OrderRequest) : Prop :=
  req_symbol req = symbol /\ req_side req = side /\ req_quantity req = fq /\
  req_stopPrice req = None /\ req_reduceOnly req = None /\
  if String.eqb order_type "LIMIT"
  then req_type req = "LIMIT"%string /\ req_timeInForce req = Some "GTC"%string /\
       exists (price : float) (precision : Z) (fp : float),
         In price prices /\
         req_price req = Some fp /\
         py_round price precision = Return fp
  else req_type req = "MARKET"%string /\ req_price req = None /\ req_timeInForce req = None.

(** No submission follows a rejected one. *)
Definition stops_at_first_failure (outcomes : list (Response OrderResponse)) : bool :=
  forallb accepted (removelast outcomes).

(** What a stretch [d] of the log says about one loop of the grid builder
    that submitted on [side] for [prices], took the local [orders] to
    [orders'] and ended as [out]. *)
Definition grid_stretch (symbol side order_type : string) (fq : float) (prices : list float)
    (orders orders' : list OrderResponse) (out : Outcome unit) (d : Log) : Prop :=
  orders' = orders ++ successes (order_outcomes d) /\
  Forall (grid_request_shape symbol side order_type fq prices) (order_requests d) /\
  (List.length (order_requests d) <= List.length prices)%nat /\
  stops_at_first_failure (order_outcomes d) = true /\
  (raises out = false -> forallb accepted (order_outcomes d) = true) /\
  sleeps d = [] /\ cancellations d = [] /\ filter is_ticker d = [].

(** The value the grid builder makes of its two loops. *)
Definition grid_result (buy sell : list OrderResponse) (buy_out sell_out : Outcome unit)
  : option GridResult :=
  if raises buy_out || raises sell_out then grid_partial buy sell
  else Some (grid_full buy sell).

(** What a stretch [d] of the log says about the failures in [k] turns of
    the TWAP loop that ended as [out]. *)
Definition twap_failures (k : nat) (out : Outcome unit) (d : Log) : Prop :=
  (raises out = false -> forallb accepted (order_outcomes d) = true) /\
  stops_at_first_failure (order_outcomes d) = true /\
  (List.length (order_outcomes d) <= k)%nat.
(** * Properties *)

(** ** Comparisons of floats *)

Lemma nonpositive_not_positive (x : float) :
  (x <=? 0)%float = true -> (0 <? x)%float = false.
Proof.
  rewrite leb_spec, ltb_spec.
  change (Prim2SF 0) with (S754_zero false).
  unfold SFleb, SFltb.
  destruct (Prim2SF x) as [s | s | | s m e]; simpl; try destruct s; simpl;
    intro H; try reflexivity; discriminate H.
Qed.



(** ** Running the monad *)

Ltac run_monad :=
  unfold bind, ret, lift, try_except, perform in *; simpl in *.

Lemma get_symbol_info_run (symbol : string) (env : Env) (log : Log) :
  get_symbol_info symbol env log =
  (Return (match futures_exchange_info env log with
           | inl _ => None
           | inr symbols => find_symbol symbol symbols
           end),
   log ++ [EvExchangeInfo (futures_exchange_info env log)]).
Proof.
  unfold get_symbol_info, exchange_info. run_monad.
  destruct (futures_exchange_info env log); reflexivity.
Qed.

Lemma py_round_nonneg (x : float) (ndigits : Z) :
  0 <= ndigits -> raises (py_round x ndigits) = false.
Proof.
  intro H. unfold py_round.
  destruct (Prim2SF x) as [s | s | | s m e]; try reflexivity.
  destruct (NDIGITS_MAX <? ndigits); [reflexivity |].
  destruct (ndigits <? NDIGITS_MIN); [reflexivity |].
  unfold double_round.
  apply Z.leb_le in H. rewrite H.
  destruct (round_half_even _ _); reflexivity.
Qed.

Lemma format_price_run symbol price env log :
  format_price symbol price env log =
  (format_with pricePrecision price (futures_exchange_info env log) symbol,
   log ++ [EvExchangeInfo (futures_exchange_info env log)]).
Proof.
  unfold format_price, bind, format_with. rewrite get_symbol_info_run.
  destruct (futures_exchange_info env log) as [e | symbols]; [reflexivity |].
  destruct (find_symbol symbol symbols) as [info |]; [| reflexivity].
  unfold bind, lift, ret.
  destruct (py_round price _); reflexivity.
Qed.

Lemma format_quantity_run symbol quantity env log :
  format_quantity symbol quantity env log =
  (format_with quantityPrecision quantity (futures_exchange_info env log) symbol,
   log ++ [EvExchangeInfo (futures_exchange_info env log)]).
Proof.
  unfold format_quantity, bind, format_with. rewrite get_symbol_info_run.
  destruct (futures_exchange_info env log) as [e | symbols]; [reflexivity |].
  destruct (find_symbol symbol symbols) as [info |]; [| reflexivity].
  unfold bind, lift, ret.
  destruct (py_round quantity _); reflexivity.
Qed.

Ltac innermost_case H :=
  match type of H with
  | context [match ?x with _ => _ end] =>
      lazymatch x with
      | context [match _ with _ => _ end] => fail
      | _ => destruct x eqn:?
      end
  end.

Ltac split_matches H :=
  repeat first [ rewrite format_price_run in H; unfold format_with in H
               | rewrite format_quantity_run in H; unfold format_with in H
               | progress simpl in H
               | innermost_case H ].

Ltac sync :=
  repeat match goal with
         | E : ?x = _, E' : context [?x] |- _ =>
             lazymatch E' with E => fail | _ => rewrite E in E' end
         | E : ?x = _ |- context [?x] => rewrite E
         end.

Ltac round_cannot_raise :=
  match goal with
  | E : py_round ?x _ = Raise _, H : nonneg_precisions ?s = true |- _ =>
      exfalso; apply andb_prop in H;
      let Hq := fresh "Hq" in
      let Hp := fresh "Hp" in
      let R := fresh "R" in
      destruct H as [Hq Hp]; apply Z.leb_le in Hq, Hp;
      first [ pose proof (py_round_nonneg x _ Hp) as R; rewrite E in R; discriminate R
            | pose proof (py_round_nonneg x _ Hq) as R; rewrite E in R; discriminate R ]
  end.

Ltac extension :=
  rewrite <- ?app_assoc; simpl; reflexivity.


Lemma order_outcomes_app (d1 d2 : Log) :
  order_outcomes (d1 ++ d2) = order_outcomes d1 ++ order_outcomes d2.
Proof. apply flat_map_app. Qed.

Lemma order_requests_app (d1 d2 : Log) :
  order_requests (d1 ++ d2) = order_requests d1 ++ order_requests d2.
Proof. apply flat_map_app. Qed.

Lemma successes_app {A : Type} (r1 r2 : list (Response A)) :
  successes (r1 ++ r2) = successes r1 ++ successes r2.
Proof. apply flat_map_app. Qed.



Lemma new_events_app (log d : Log) : new_events log (log ++ d) = d.
Proof.
  unfold new_events. rewrite skipn_app, skipn_all, Nat.sub_diag. reflexivity.
Qed.

Lemma range_length (n : Z) : List.length (range n) = Z.to_nat n.
Proof. unfold range. now rewrite length_map, length_seq. Qed.

Lemma new_events_none (log : Log) : new_events log log = [].
Proof. unfold new_events. apply skipn_all. Qed.

Lemma format_with_some precision x r symbol fq :
  format_with precision x r symbol = Return (Some fq) ->
  exists symbols info,
    r = inr symbols /\ find_symbol symbol symbols = Some info /\
    py_round x (dict_get (precision info) 8) = Return fq.
Proof.
  unfold format_with. destruct r as [e | symbols]; [discriminate |].
  destruct (find_symbol symbol symbols) as [info |] eqn:Hfind; [| discriminate].
  destruct (py_round x _) as [v | e] eqn:Hr; [| discriminate].
  intro H. inversion H; subst. now exists symbols, info.
Qed.





Lemma requests_as_many_as_outcomes (log : Log) :
  List.length (order_requests log) = List.length (order_outcomes log).
Proof.
  induction log as [| ev log IH]; simpl; [reflexivity |].
  destruct ev; simpl; auto.
Qed.

(** ** Validation comes before every remote call *)

Lemma nonpositive_quantity (q : float) : nonpositive q -> validate_quantity q = false.
Proof. exact (nonpositive_not_positive q). Qed.

Lemma nonpositive_price (p : float) : nonpositive p -> validate_price p = false.
Proof. exact (nonpositive_not_positive p). Qed.

Lemma market_rejects_quantity symbol side q ro env log :
  validate_quantity q = false ->
  place_market_order symbol side q ro env log = (Return None, log).
Proof.
  intro Hq. unfold place_market_order.
  destruct (validate_symbol symbol), (valid_side side); simpl; try reflexivity.
  now rewrite Hq.
Qed.

Lemma limit_rejects_amounts symbol side q p tif ro env log :
  validate_quantity q = false \/ validate_price p = false ->
  place_limit_order symbol side q p tif ro env log = (Return None, log).
Proof.
  intro H. unfold place_limit_order.
  destruct (validate_symbol symbol), (valid_side side); simpl; try reflexivity.
  destruct (validate_quantity q); simpl; try reflexivity.
  destruct H as [H | H]; [discriminate H | now rewrite H].
Qed.

Lemma stop_limit_rejects_amounts symbol side q sp lp ro env log :
  validate_quantity q = false \/ validate_price sp = false \/ validate_price lp = false ->
  place_stop_limit_order symbol side q sp lp ro env log = (Return None, log).
Proof.
  intro H. unfold place_stop_limit_order.
  destruct (validate_symbol symbol), (valid_side side); simpl; try reflexivity.
  destruct (validate_quantity q); simpl; try reflexivity.
  destruct H as [H | [H | H]]; [discriminate H | rewrite H | rewrite H]; simpl;
    rewrite ?orb_true_r; reflexivity.
Qed.

Lemma oco_rejects_amounts symbol side q p sp lp ro env log :
  validate_quantity q = false \/ validate_price p = false \/
  validate_price sp = false \/ validate_price lp = false ->
  place_oco_order symbol side q p sp lp ro env log = (Return None, log).
Proof.
  intro H. unfold place_oco_order.
  destruct (validate_symbol symbol), (valid_side side); simpl; try reflexivity.
  destruct (validate_quantity q); simpl; try reflexivity.
  destruct H as [H | [H | [H | H]]]; [discriminate H | rewrite H ..]; simpl;
    rewrite ?andb_false_r; reflexivity.
Qed.

Lemma twap_rejects_quantity symbol side q dur n otype env log :
  validate_quantity q = false ->
  place_twap_order symbol side q dur n otype env log = (Return None, log).
Proof.
  intro Hq. unfold place_twap_order.
  destruct (validate_symbol symbol), (valid_side side); simpl; try reflexivity.
  now rewrite Hq.
Qed.

Lemma grid_rejects_amounts symbol lo up n q otype env log :
  validate_price lo = false \/ validate_price up = false \/ validate_quantity q = false ->
  place_grid_orders symbol lo up n q otype env log = (Return None, log).
Proof.
  intro H. unfold place_grid_orders.
  destruct (validate_symbol symbol); simpl; try reflexivity.
  destruct (validate_price lo) eqn:Hlo; simpl; try reflexivity.
  destruct (validate_price up) eqn:Hup; simpl; try reflexivity.
  destruct (up <=? lo)%float; try reflexivity.
  destruct (n <=? 0); try reflexivity.
  destruct H as [H | [H | H]]; try discriminate H.
  now rewrite H.
Qed.

(** C4. A quantity or a price argument that is zero or negative makes each
    of the six builders (market, limit, stop-limit, OCO, TWAP, grid) return
    the null result, and the interaction log is left as it was: no metadata
    fetch, no ticker fetch, no order creation. *)
Theorem nonpositive_amount_rejected_before_any_call :
  forall (env : Env) (log : Log) (symbol side : string) (ro : bool),
    (forall q, nonpositive q ->
       place_market_order symbol side q ro env log = (Return None, log)) /\
    (forall q p tif, nonpositive q \/ nonpositive p ->
       place_limit_order symbol side q p tif ro env log = (Return None, log)) /\
    (forall q sp lp, nonpositive q \/ nonpositive sp \/ nonpositive lp ->
       place_stop_limit_order symbol side q sp lp ro env log = (Return None, log)) /\
    (forall q p sp lp, nonpositive q \/ nonpositive p \/ nonpositive sp \/ nonpositive lp ->
       place_oco_order symbol side q p sp lp ro env log = (Return None, log)) /\
    (forall q dur n otype, nonpositive q ->
       place_twap_order symbol side q dur n otype env log = (Return None, log)) /\
    (forall lo up n q otype, nonpositive lo \/ nonpositive up \/ nonpositive q ->
       place_grid_orders symbol lo up n q otype env log = (Return None, log)).
Proof.
  intros env log symbol side ro. repeat split.
  - intros q H. apply market_rejects_quantity, nonpositive_quantity, H.
  - intros q p tif H. apply limit_rejects_amounts.
    destruct H as [H | H];
      [left; apply nonpositive_quantity, H | right; apply nonpositive_price, H].
  - intros q sp lp H. apply stop_limit_rejects_amounts.
    destruct H as [H | [H | H]];
      [left; apply nonpositive_quantity, H
      | right; left; apply nonpositive_price, H
      | right; right; apply nonpositive_price, H].
  - intros q p sp lp H. apply oco_rejects_amounts.
    destruct H as [H | [H | [H | H]]];
      [left; apply nonpositive_quantity, H
      | right; left; apply nonpositive_price, H
      | right; right; left; apply nonpositive_price, H
      | right; right; right; apply nonpositive_price, H].
  - intros q dur n otype H. apply twap_rejects_quantity, nonpositive_quantity, H.
  - intros lo up n q otype H. apply grid_rejects_amounts.
    destruct H as [H | [H | H]];
      [left; apply nonpositive_price, H
      | right; left; apply nonpositive_price, H
      | right; right; apply nonpositive_quantity, H].
Qed.

(** A zero quantity at the market builder, a negative price at the OCO
    builder and a negative lower bound at the grid builder, against an
    exchange that would have accepted the orders. *)
Lemma nonpositive_amount_rejected_witness :
  place_market_order "BTCUSDT" "BUY" 0 false Demo.healthy [] = (Return None, []) /\
  place_oco_order "BTCUSDT" "SELL" 1 50000 (-49000) 51000 false Demo.healthy []
    = (Return None, []) /\
  place_grid_orders "BTCUSDT" (-1) 52000 4 1 "LIMIT" Demo.healthy [] = (Return None, []).
Proof.
  pose proof (nonpositive_amount_rejected_before_any_call
                Demo.healthy [] "BTCUSDT" "BUY" false) as Hbuy.
  pose proof (nonpositive_amount_rejected_before_any_call
                Demo.healthy [] "BTCUSDT" "SELL" false) as Hsell.
  split; [| split].
  - apply (proj1 Hbuy). reflexivity.
  - apply (proj1 (proj2 (proj2 (proj2 Hsell)))). right. right. left. reflexivity.
  - apply (proj2 (proj2 (proj2 (proj2 (proj2 Hbuy))))). left. reflexivity.
Defined.

(** ** Side and time-in-force *)











(** ** The TWAP loop *)

Section TwapLoop.
Variables (symbol side order_type : string) (fq interval_seconds : float) (num_intervals : Z).

Let body := twap_body symbol side order_type fq interval_seconds num_intervals.

Lemma twap_body_stretch i orders env log orders' out log' :
  body i orders env log = ((orders', out), log') ->
  exists d, log' = log ++ d /\ twap_stretch symbol order_type fq 1 orders orders' out d.
Proof.
  unfold body, twap_body, twap_interval_order, symbol_ticker, create_order, sleep.
  unfold bind, perform, ret.
  intro H. destruct (String.eqb order_type "MARKET") eqn:Hty.
  all: split_matches H.
  all: try discriminate.
  all: inversion H; subst; clear H.
  all: eexists; split; [extension |].
  all: unfold twap_stretch; rewrite Hty; simpl; rewrite ?app_nil_r.
  all: sync; simpl.
  all: repeat split; try reflexivity; try discriminate; auto.
  all: try (repeat constructor; reflexivity).
  all: rewrite ?andb_true_r, ?andb_false_r in *; try discriminate.
  all: round_cannot_raise.
Qed.

Lemma twap_loop_stretch xs : forall orders env log orders' out log',
  for_each body xs orders env log = ((orders', out), log') ->
  exists d, log' = log ++ d /\
    twap_stretch symbol order_type fq (List.length xs) orders orders' out d.
Proof.
  induction xs as [| x xs IH]; intros orders env log orders' out log' H; simpl in H.
  - inversion H; subst. exists []. rewrite app_nil_r. split; [reflexivity |].
    unfold twap_stretch. simpl. rewrite app_nil_r.
    repeat split; auto. now destruct (String.eqb order_type "MARKET").
  - destruct (body x orders env log) as [[s1 o1] l1] eqn:Hb.
    apply twap_body_stretch in Hb. destruct Hb as (d1 & -> & Hs1 & Ha1 & Hq1 & Hu1).
    destruct o1 as [u | e].
    + apply IH in H. destruct H as (d2 & -> & Hs2 & Ha2 & Hq2 & Hu2).
      exists (d1 ++ d2). split; [now rewrite app_assoc |].
      unfold twap_stretch.
      rewrite order_outcomes_app, order_requests_app, successes_app, !forallb_app.
      rewrite !filter_app, !length_app.
      repeat split.
      * rewrite Hs2, Hs1. now rewrite app_assoc.
      * intro Ho. rewrite Ha1, Ha2; auto.
      * apply Forall_app. split; assumption.
      * apply andb_prop in H. destruct H as [H1 H2]. now apply Hu2.
      * apply andb_prop in H. destruct H as [H1 H2].
        destruct (Hu1 H1) as (_ & Hc1 & _). destruct (Hu2 H2) as (_ & Hc2 & _). simpl. lia.
      * apply andb_prop in H. destruct H as [H1 H2].
        destruct (Hu1 H1) as (_ & _ & Hc1). destruct (Hu2 H2) as (_ & _ & Hc2).
        rewrite Hc1, Hc2. destruct (String.eqb order_type "MARKET"); simpl; lia.
    + inversion H; subst. exists d1. split; [reflexivity |].
      unfold twap_stretch. repeat split; auto.
      all: match goal with Hd : forallb _ _ = true |- _ =>
             destruct (Hu1 Hd) as (Hr & _); discriminate Hr end.
Qed.
End TwapLoop.

Lemma place_twap_order_run env log0 symbol side Q dur n otype res log' :
  place_twap_order symbol side Q dur n otype env log0 = (res, log') ->
  twap_run env log0 symbol side Q dur n otype res log'.
Proof.
  unfold place_twap_order. intro H.
  destruct (validate_symbol symbol); simpl in H; [| inversion H; constructor].
  destruct (valid_side side); simpl in H; [| inversion H; constructor].
  destruct (validate_quantity Q); simpl in H; [| inversion H; constructor].
  destruct (dur <=? 0); simpl in H; [inversion H; constructor |].
  destruct (n <=? 0) eqn:Hn; simpl in H; [inversion H; constructor |].
  destruct (valid_twap_order_type otype); simpl in H; [| inversion H; constructor].
  apply Z.leb_gt in Hn.
  unfold bind, lift, float_div_int in H.
  destruct (int_to_float n) as [nf | e] eqn:Hnf; simpl in H; [| inversion H; constructor].
  destruct (int_truediv (dur * 60) n) as [secs | e]; [| inversion H; constructor].
  rewrite format_quantity_run in H.
  destruct (format_with quantityPrecision (Q / nf) (futures_exchange_info env log0) symbol)
    as [[fq |] | e] eqn:Hf.
  - destruct (for_each _ _ _ _ _) as [[orders out] l2] eqn:Hloop in H.
    apply twap_loop_stretch in Hloop. destruct Hloop as (d & -> & Hs).
    rewrite range_length in Hs.
    assert (res = Return (twap_result orders out) /\
            log' = log0 ++ EvExchangeInfo (futures_exchange_info env log0) :: d) as [-> ->].
    { rewrite <- app_assoc in H. simpl in H.
      destruct out as [u | e]; inversion H; subst; split; reflexivity. }
    now apply twap_looped with (nf := nf) (fq := fq).
  - unfold ret in H. inversion H; subst. apply twap_unformatted with (nf := nf); [assumption |].
    now rewrite Hf.
  - inversion H; subst. apply twap_unformatted with (nf := nf); [assumption |].
    now rewrite Hf.
Qed.


(** C8. When the very first order submission of a TWAP call fails, so that
    no order was placed, the call returns the null result and not an empty
    list; a request that fails validation returns the same null result, so
    the value alone does not tell the two apart. *)
Theorem twap_total_failure_returns_null :
  forall (env : Env) (log0 : Log) (symbol side : string) (total_quantity : float)
         (duration_minutes num_intervals : Z) (order_type : string),
    (forall res log' e,
       place_twap_order symbol side total_quantity duration_minutes num_intervals order_type
         env log0 = (res, log') ->
       order_outcomes (new_events log0 log') = [inl e] ->
       res = Return None) /\
    (validate_quantity total_quantity = false ->
       place_twap_order symbol side total_quantity duration_minutes num_intervals order_type
         env log0 = (Return None, log0)).
Proof.
  intros env log0 symbol side Q dur n otype. split; [| apply twap_rejects_quantity].
  intros res log' e Hrun Hout.
  apply place_twap_order_run in Hrun.
  destruct Hrun as [ | e' | nf r Hnf Hf | nf fq orders out d Hnf Hn Hf Hs].
  - reflexivity.
  - rewrite new_events_none in Hout. discriminate.
  - rewrite new_events_app in Hout. discriminate.
  - change (log0 ++ EvExchangeInfo (futures_exchange_info env log0) :: d)
      with (log0 ++ [EvExchangeInfo (futures_exchange_info env log0)] ++ d) in Hout.
    rewrite new_events_app in Hout. simpl in Hout.
    destruct Hs as (Ho & Ha & _). simpl in Ho. rewrite Hout in Ho, Ha. simpl in *.
    subst orders. destruct out as [u | e']; [| reflexivity].
    discriminate (Ha eq_refl).
Qed.



(** Three intervals, the first submission rejected; and a zero quantity. *)
Lemma twap_total_failure_witness :
  fst (place_twap_order "BTCUSDT" "BUY" 1 1 3 "MARKET"
         (Demo.exchange 50000 (Some 0%nat) None) []) = Return None /\
  place_twap_order "BTCUSDT" "BUY" 0 1 3 "MARKET" (Demo.exchange 50000 (Some 0%nat) None) []
    = (Return None, []).
Proof.
  pose proof (twap_total_failure_returns_null (Demo.exchange 50000 (Some 0%nat) None) []
                "BTCUSDT" "BUY" 1 1 3 "MARKET") as [Hfail _].
  pose proof (twap_total_failure_returns_null (Demo.exchange 50000 (Some 0%nat) None) []
                "BTCUSDT" "BUY" 0 1 3 "MARKET") as [_ Hinvalid].
  split.
  - destruct (place_twap_order "BTCUSDT" "BUY" 1 1 3 "MARKET"
                (Demo.exchange 50000 (Some 0%nat) None) []) as [res log'] eqn:Hrun.
    simpl fst. apply (Hfail res log' (BinanceAPIException (-2019)) eq_refl).
    vm_compute in Hrun. inversion Hrun. reflexivity.
  - apply Hinvalid. reflexivity.
Defined.



(** ** The TWAP clips *)










(** ** The grid price ladder *)















(** ** The two sides of the grid *)

Lemma buy_loop_filter symbol otype fq P prices :
  forall orders env log,
    for_each (grid_buy_body symbol otype fq P) prices orders env log =
    for_each (grid_submit symbol "BUY" otype fq)
      (filter (fun p => (p <? P)%float) prices) orders env log.
Proof.
  induction prices as [| p prices IH]; intros orders env log; simpl; [reflexivity |].
  unfold grid_buy_body at 1.
  destruct (p <? P)%float; simpl.
  - destruct (grid_submit symbol "BUY" otype fq p orders env log) as [[s' [u | e]] l'];
      [apply IH | reflexivity].
  - apply IH.
Qed.

Lemma sell_loop_filter symbol otype fq P prices :
  forall orders env log,
    for_each (grid_sell_body symbol otype fq P) prices orders env log =
    for_each (grid_submit symbol "SELL" otype fq)
      (filter (fun p => (P <? p)%float) prices) orders env log.
Proof.
  induction prices as [| p prices IH]; intros orders env log; simpl; [reflexivity |].
  unfold grid_sell_body at 1.
  destruct (P <? p)%float; simpl.
  - destruct (grid_submit symbol "SELL" otype fq p orders env log) as [[s' [u | e]] l'];
      [apply IH | reflexivity].
  - apply IH.
Qed.



(** ** The two orders of the OCO builder *)

Lemma opposite_of_valid_side (side : string) :
  valid_side side = true ->
  (upper side = "BUY"%string /\ opposite_side side = "SELL"%string) \/
  (upper side = "SELL"%string /\ opposite_side side = "BUY"%string).
Proof.
  unfold valid_side, str_in, opposite_side. simpl. rewrite orb_false_r.
  destruct (String.eqb_spec (upper side) "BUY") as [Hb | Hb].
  - intros _. left. now split.
  - simpl. intro Hs. apply String.eqb_eq in Hs. right. now split.
Qed.

(** C9. A call of the OCO builder that returns its two orders has looked up
    the metadata three times and then submitted exactly two orders, both on
    the side opposite to the requested one and both for the same formatted
    quantity: a STOP_MARKET order whose [stopPrice] is the formatted
    [stop_price], then a TAKE_PROFIT_MARKET order whose [stopPrice] is the
    formatted [limit_price].  Neither carries a limit [price] or a
    time-in-force, so no limit-type order is placed. *)
Theorem oco_places_two_opposite_market_triggers :
  forall (env : Env) (log0 log' : Log) (symbol side : string)
         (quantity price stop_price limit_price : float) (reduce_only : bool)
         (orders : OrderDict),
    place_oco_order symbol side quantity price stop_price limit_price reduce_only env log0
      = (Return (Some orders), log') ->
    exists (s1 s2 s3 : list SymbolInfo) (i1 i2 i3 : SymbolInfo)
           (fq fsp flp : float) (opposite : string)
           (stop_order take_profit_order : OrderResponse),
      find_symbol symbol s1 = Some i1 /\
      find_symbol symbol s2 = Some i2 /\
      find_symbol symbol s3 = Some i3 /\
      py_round quantity (dict_get (quantityPrecision i1) 8) = Return fq /\
      py_round stop_price (dict_get (pricePrecision i2) 8) = Return fsp /\
      py_round limit_price (dict_get (pricePrecision i3) 8) = Return flp /\
      ((upper side = "BUY"%string /\ opposite = "SELL"%string) \/
       (upper side = "SELL"%string /\ opposite = "BUY"%string)) /\
      new_events log0 log' =
        [ EvExchangeInfo (inr s1); EvExchangeInfo (inr s2); EvExchangeInfo (inr s3);
          EvCreateOrder
            {| req_symbol := symbol; req_side := opposite; req_type := "STOP_MARKET";
               req_quantity := fq; req_price := None; req_stopPrice := Some fsp;
               req_timeInForce := None; req_reduceOnly := Some reduce_only |}
            (inr stop_order);
          EvCreateOrder
            {| req_symbol := symbol; req_side := opposite; req_type := "TAKE_PROFIT_MARKET";
               req_quantity := fq; req_price := None; req_stopPrice := Some flp;
               req_timeInForce := None; req_reduceOnly := Some reduce_only |}
            (inr take_profit_order) ] /\
      orders = [("stop_loss"%string, stop_order); ("take_profit"%string, take_profit_order)].
Proof.
  intros env log0 log' symbol side q p sp lp ro orders H.
  unfold place_oco_order in H.
  destruct (validate_symbol symbol); simpl in H; [| discriminate H].
  destruct (valid_side side) eqn:Hside; simpl in H; [| discriminate H].
  destruct (validate_quantity q); simpl in H; [| discriminate H].
  destruct (validate_price p && (validate_price sp && (validate_price lp && true)));
    simpl in H; [| discriminate H].
  unfold bind in H. rewrite format_quantity_run in H.
  destruct (format_with quantityPrecision q _ symbol) as [ofq | e] eqn:Hfq; [| discriminate H].
  rewrite format_price_run in H.
  destruct (format_with pricePrecision sp _ symbol) as [ofsp | e] eqn:Hfsp; [| discriminate H].
  rewrite format_price_run in H.
  destruct (format_with pricePrecision lp _ symbol) as [oflp | e] eqn:Hflp; [| discriminate H].
  destruct ofq as [fq |]; [| discriminate H].
  destruct ofsp as [fsp |]; [| discriminate H].
  destruct oflp as [flp |]; [| discriminate H].
  apply format_with_some in Hfq, Hfsp, Hflp.
  destruct Hfq as (s1 & i1 & Hr1 & Hf1 & Hq1).
  destruct Hfsp as (s2 & i2 & Hr2 & Hf2 & Hq2).
  destruct Hflp as (s3 & i3 & Hr3 & Hf3 & Hq3).
  rewrite Hr1 in H, Hr2, Hr3. rewrite Hr2 in H, Hr3. rewrite Hr3 in H.
  unfold oco_try, create_order, perform in H.
  match type of H with
  | context [futures_create_order env ?l ?r] =>
      destruct (futures_create_order env l r) as [e | stop_order] eqn:Hstop
  end.
  { simpl in H. unfold bind, ret in H. inversion H. }
  match type of H with
  | context [match futures_create_order env ?l ?r with _ => _ end] =>
      destruct (futures_create_order env l r) as [e | take_profit_order] eqn:Htp
  end.
  { simpl in H. unfold bind, ret, try_except in H.
    destruct (orderId stop_order); simpl in H.
    - unfold cancel_order, perform in H.
      destruct (futures_cancel_order env _ symbol _); inversion H.
    - inversion H. }
  inversion H; subst. clear H.
  exists s1, s2, s3, i1, i2, i3, fq, fsp, flp, (opposite_side side),
    stop_order, take_profit_order.
  repeat split; try assumption.
  - now apply opposite_of_valid_side.
  - rewrite <- !app_assoc. rewrite new_events_app. reflexivity.
Qed.

(** A long position protected against the scripted exchange: the stop at
    49000 and the take-profit at 51000 are both SELL orders of 0.01. *)
Lemma oco_witness :
  exists opposite fq fsp flp,
    opposite = "SELL"%string /\ fq = 0.01%float /\ fsp = 49000%float /\ flp = 51000%float /\
    map (fun r => (req_side r, req_type r, req_quantity r, req_stopPrice r, req_price r))
      (order_requests
         (snd (place_oco_order "BTCUSDT" "BUY" 0.01 50000 49000 51000 true Demo.healthy [])))
    = [ (opposite, "STOP_MARKET"%string, fq, Some fsp, None);
        (opposite, "TAKE_PROFIT_MARKET"%string, fq, Some flp, None) ].
Proof.
  destruct (place_oco_order "BTCUSDT" "BUY" 0.01 50000 49000 51000 true Demo.healthy [])
    as [res log'] eqn:Hrun.
  assert (exists orders, res = Return (Some orders)) as [orders ->].
  { vm_compute in Hrun. inversion Hrun. eexists. reflexivity. }
  destruct (oco_places_two_opposite_market_triggers _ _ _ _ _ _ _ _ _ _ _ Hrun)
    as (s1 & s2 & s3 & i1 & i2 & i3 & fq & fsp & flp & opposite & o1 & o2
        & _ & _ & _ & _ & _ & _ & _ & Hlog & _).
  vm_compute in Hrun. inversion Hrun as [[Hres Hlog']].
  rewrite <- Hlog' in Hlog. unfold new_events in Hlog. simpl in Hlog.
  inversion Hlog; subst.
  simpl snd. exists "SELL"%string, 0.01%float, 49000%float, 51000%float.
  repeat split.
Defined.

(** ** Exceptions that reach the caller *)

(** C7 at its failing inputs.  A [grid_levels] or [num_intervals] too large
    for a float passes validation, and the division that follows, which is
    outside the [try], raises [OverflowError]: the exception reaches the
    caller, whatever the exchange would have answered. *)
Theorem huge_level_count_raises_to_the_caller :
  forall (env : Env) (log : Log),
    place_grid_orders "BTCUSDT" 1 2 (10 ^ 400) 1 "LIMIT" env log = (Raise OverflowError, log) /\
    place_twap_order "BTCUSDT" "BUY" 1 1 (10 ^ 400) "MARKET" env log
      = (Raise OverflowError, log) /\
    place_twap_order "BTCUSDT" "BUY" 1 (10 ^ 400) 1 "MARKET" env log
      = (Raise OverflowError, log).
Proof.
  intros env log. repeat split; vm_compute; reflexivity.
Qed.

(** ** Where no exception escapes *)

Section SaneMetadata.
Variable env : Env.
Hypothesis Hsane : reports_nonneg_precisions env.

Lemma format_with_returns precision x log symbol :
  precision = quantityPrecision \/ precision = pricePrecision ->
  raises (format_with precision x (futures_exchange_info env log) symbol) = false.
Proof.
  intro Hp. unfold format_with.
  destruct (futures_exchange_info env log) as [e | symbols] eqn:Hr; [reflexivity |].
  destruct (find_symbol symbol symbols) as [info |] eqn:Hf; [| reflexivity].
  pose proof (Hsane log symbols symbol info Hr Hf) as Hn.
  apply andb_prop in Hn. destruct Hn as [Hq Hpr]. apply Z.leb_le in Hq, Hpr.
  assert (0 <= dict_get (precision info) 8) as H0 by (destruct Hp; subst; assumption).
  pose proof (py_round_nonneg x _ H0) as R.
  destruct (py_round x _); [reflexivity | discriminate R].
Qed.

Ltac formatted H :=
  match goal with
  | |- context [format_with ?p ?x (futures_exchange_info env ?l) ?s] =>
      let R := fresh "R" in
      pose proof (format_with_returns p x l s ltac:(auto)) as R;
      destruct (format_with p x (futures_exchange_info env l) s) as [[?fv |] | ?e] eqn:H;
      [clear R | clear R | discriminate R]
  end.

Lemma market_returns symbol side q ro log :
  raises (fst (place_market_order symbol side q ro env log)) = false.
Proof.
  unfold place_market_order.
  destruct (validate_symbol symbol), (valid_side side), (validate_quantity q);
    simpl; try reflexivity.
  unfold bind. rewrite format_quantity_run. formatted Hq; try reflexivity.
  unfold try_except, bind, create_order, perform, ret.
  destruct (futures_create_order env _ _); reflexivity.
Qed.

Lemma limit_returns symbol side q p tif ro log :
  raises (fst (place_limit_order symbol side q p tif ro env log)) = false.
Proof.
  unfold place_limit_order.
  destruct (validate_symbol symbol), (valid_side side), (validate_quantity q),
    (validate_price p), (valid_time_in_force tif); simpl; try reflexivity.
  unfold bind. rewrite format_quantity_run. formatted Hq;
    rewrite format_price_run; formatted Hp; try reflexivity.
  unfold try_except, bind, create_order, perform, ret.
  destruct (futures_create_order env _ _); reflexivity.
Qed.

Lemma stop_limit_returns symbol side q sp lp ro log :
  raises (fst (place_stop_limit_order symbol side q sp lp ro env log)) = false.
Proof.
  unfold place_stop_limit_order.
  destruct (validate_symbol symbol), (valid_side side), (validate_quantity q);
    simpl; try reflexivity.
  destruct (negb (validate_price sp) || negb (validate_price lp)); [reflexivity |].
  unfold bind. rewrite format_quantity_run. formatted Hq;
    rewrite format_price_run; formatted Hs;
    rewrite format_price_run; formatted Hl; try reflexivity.
  unfold try_except, bind, create_order, perform, ret.
  destruct (futures_create_order env _ _); reflexivity.
Qed.

Lemma cancel_returns symbol orders log :
  fst (_cancel_oco_orders symbol orders env log) = Return tt.
Proof.
  revert log. induction orders as [| [k order] orders IH]; intro log; simpl; [reflexivity |].
  unfold bind, try_except.
  destruct (orderId order) as [oid |].
  - unfold cancel_order, perform.
    destruct (futures_cancel_order env log symbol oid) as [e | []]; simpl; apply IH.
  - simpl. apply IH.
Qed.

Lemma oco_returns symbol side q p sp lp ro log :
  raises (fst (place_oco_order symbol side q p sp lp ro env log)) = false.
Proof.
  unfold place_oco_order.
  destruct (validate_symbol symbol), (valid_side side), (validate_quantity q);
    simpl; try reflexivity.
  destruct (validate_price p && (validate_price sp && (validate_price lp && true)));
    simpl; [| reflexivity].
  unfold bind at 1 2 3. rewrite format_quantity_run. formatted Hq;
    rewrite format_price_run; formatted Hs;
    rewrite format_price_run; formatted Hl; try reflexivity.
  unfold oco_try, create_order, perform.
  destruct (futures_create_order env _ _) as [e | stop_order]; simpl.
  - reflexivity.
  - destruct (futures_create_order env _ _) as [e | take_profit_order];
      [| reflexivity].
    cbv beta iota. unfold bind.
    match goal with
    | |- context [_cancel_oco_orders ?s ?o env ?l] =>
        pose proof (cancel_returns s o l) as Hc;
        destruct (_cancel_oco_orders s o env l) as [out l']
    end.
    simpl in Hc. subst out. reflexivity.
Qed.

Lemma twap_returns symbol side q dur n otype log nf secs :
  int_to_float n = Return nf ->
  int_truediv (dur * 60) n = Return secs ->
  raises (fst (place_twap_order symbol side q dur n otype env log)) = false.
Proof.
  intros Hnf Hsecs. unfold place_twap_order.
  destruct (validate_symbol symbol), (valid_side side), (validate_quantity q);
    simpl; try reflexivity.
  destruct ((dur <=? 0) || (n <=? 0)); [reflexivity |].
  destruct (valid_twap_order_type otype); simpl; [| reflexivity].
  unfold bind, lift, float_div_int. rewrite Hnf. simpl outcome_bind. rewrite Hsecs.
  rewrite format_quantity_run. formatted Hq; try reflexivity.
  destruct (for_each _ _ _ _ _) as [[orders [u | e]] l']; reflexivity.
Qed.

Lemma grid_returns symbol lo up n q otype log prices :
  grid_prices lo up n = Return prices ->
  raises (fst (place_grid_orders symbol lo up n q otype env log)) = false.
Proof.
  intro Hprices. unfold place_grid_orders.
  destruct (validate_symbol symbol); simpl; [| reflexivity].
  destruct (negb (validate_price lo) || negb (validate_price up)); [reflexivity |].
  destruct (up <=? lo)%float; [reflexivity |].
  destruct (n <=? 0); [reflexivity |].
  destruct (validate_quantity q); simpl; [| reflexivity].
  destruct (valid_grid_order_type otype); simpl; [| reflexivity].
  unfold bind, lift. rewrite Hprices.
  rewrite format_quantity_run. formatted Hq; try reflexivity.
  unfold grid_try, symbol_ticker, perform.
  destruct (futures_symbol_ticker env _ symbol) as [e | P]; [reflexivity |].
  destruct (for_each _ _ _ _ _) as [[buy [u | e]] l1]; [| reflexivity].
  destruct (for_each _ _ _ _ _) as [[sell [u' | e]] l2]; reflexivity.
Qed.

End SaneMetadata.

Lemma healthy_is_sane : reports_nonneg_precisions Demo.healthy.
Proof.
  intros log symbols symbol info Hr Hf. simpl in Hr. inversion Hr; subst symbols.
  unfold find_symbol in Hf. cbn [find] in Hf.
  destruct (String.eqb (info_symbol Demo.btcusdt) symbol); [| discriminate Hf].
  inversion Hf. reflexivity.
Qed.

(** X1. Against an exchange whose reported precisions are not negative, the
    market, limit, stop-limit and OCO builders always return: whatever the
    arguments and whatever the exchange answers or raises, no exception
    reaches the caller. *)
Theorem single_order_builders_never_raise :
  forall (env : Env),
    reports_nonneg_precisions env ->
    forall (log : Log) (symbol side tif : string) (ro : bool) (q p sp lp : float),
      raises (fst (place_market_order symbol side q ro env log)) = false /\
      raises (fst (place_limit_order symbol side q p tif ro env log)) = false /\
      raises (fst (place_stop_limit_order symbol side q sp lp ro env log)) = false /\
      raises (fst (place_oco_order symbol side q p sp lp ro env log)) = false.
Proof.
  intros env Hsane log symbol side tif ro q p sp lp. repeat split.
  - now apply market_returns.
  - now apply limit_returns.
  - now apply stop_limit_returns.
  - now apply oco_returns.
Qed.

Lemma single_order_builders_witness :
  raises (fst (place_market_order "BTCUSDT" "BUY" 1 false
                 (Demo.exchange 50000 (Some 0%nat) None) [])) = false.
Proof.
  assert (reports_nonneg_precisions (Demo.exchange 50000 (Some 0%nat) None)) as Hsane.
  { intros log symbols symbol info Hr Hf. simpl in Hr. inversion Hr; subst symbols.
    unfold find_symbol in Hf. cbn [find] in Hf.
    destruct (String.eqb (info_symbol Demo.btcusdt) symbol); [| discriminate Hf].
    inversion Hf. reflexivity. }
  exact (proj1 (single_order_builders_never_raise _ Hsane [] "BTCUSDT" "BUY" "GTC" false
                  1%float 1%float 1%float 1%float)).
Defined.

(** X2. Against such an exchange the TWAP and grid builders always return once
    the arithmetic that precedes their [try] block has gone through: the
    two divisions of the TWAP builder, the ladder of the grid builder. *)
Theorem composite_builders_raise_only_before_the_try :
  forall (env : Env),
    reports_nonneg_precisions env ->
    forall (log : Log) (symbol side otype : string) (q lo up : float) (dur n : Z),
      (forall nf secs : float,
         int_to_float n = Return nf ->
         int_truediv (dur * 60) n = Return secs ->
         raises (fst (place_twap_order symbol side q dur n otype env log)) = false) /\
      (forall prices : list float,
         grid_prices lo up n = Return prices ->
         raises (fst (place_grid_orders symbol lo up n q otype env log)) = false).
Proof.
  intros env Hsane log symbol side otype q lo up dur n. split.
  - intros nf secs Hnf Hsecs. now apply twap_returns with (nf := nf) (secs := secs).
  - intros prices Hprices. now apply grid_returns with (prices := prices).
Qed.

Lemma composite_builders_witness :
  raises (fst (place_twap_order "BTCUSDT" "BUY" 1 1 3 "MARKET" Demo.healthy [])) = false /\
  raises (fst (place_grid_orders "BTCUSDT" 48000 52000 4 1 "LIMIT" Demo.healthy [])) = false.
Proof.
  pose proof (composite_builders_raise_only_before_the_try Demo.healthy healthy_is_sane []
                "BTCUSDT" "BUY" "MARKET" 1%float 0%float 0%float 1 3) as [Htwap _].
  pose proof (composite_builders_raise_only_before_the_try Demo.healthy healthy_is_sane []
                "BTCUSDT" "BUY" "LIMIT" 1%float 48000%float 52000%float 1 4) as [_ Hgrid].
  split.
  - apply (Htwap 3%float 20%float); reflexivity.
  - apply (Hgrid [48000; 49000; 50000; 51000; 52000]%float). reflexivity.
Defined.


(** ** More on validation *)












Lemma SFcompare_refl (x : spec_float) :
  x <> S754_nan -> SFcompare x x = Some Eq.
Proof.
  destruct x as [s | s | | s m e]; simpl; intro H; try reflexivity.
  - now destruct s.
  - contradiction.
  - rewrite Z.compare_refl. fold (Pos.compare m m). rewrite Pos.compare_refl.
    now destruct s.
Qed.

(** An amount passes [validate_quantity] (and [validate_price]) exactly
    when it is neither NaN nor at most zero. *)
Lemma positive_amounts (x : float) :
  (0 <? x)%float = true <-> is_nan x = false /\ (x <=? 0)%float = false.
Proof.
  unfold is_nan. rewrite ltb_spec, leb_spec, eqb_spec.
  change (Prim2SF 0) with (S754_zero false).
  unfold SFltb, SFleb, SFeqb.
  destruct (Prim2SF x) as [s | s | | s m e] eqn:Hx.
  - simpl. split; [discriminate | intros [_ H]; discriminate H].
  - rewrite SFcompare_refl by discriminate. destruct s; simpl; split; auto;
      try discriminate; intros [_ H]; discriminate H.
  - simpl. split; [discriminate | intros [H _]; discriminate H].
  - rewrite SFcompare_refl by discriminate. destruct s; simpl; split; auto;
      try discriminate; intros [_ H]; discriminate H.
Qed.

Lemma nan_not_positive (x : float) : is_nan x = true -> (0 <? x)%float = false.
Proof.
  intro H. destruct (0 <? x)%float eqn:Hx; [| reflexivity].
  apply positive_amounts in Hx. destruct Hx as [Hn _]. congruence.
Qed.

(** X5. An amount passes the quantity and price checks exactly when it is
    not NaN and not at most zero (so an infinite amount passes); and a NaN
    quantity or price makes each of the six builders return the null result
    with no remote call. *)
Theorem nan_amount_rejected_before_any_call :
  forall (env : Env) (log : Log) (symbol side tif otype : string) (ro : bool) (dur n : Z)
         (x : float),
    (validate_quantity x = true <-> is_nan x = false /\ (x <=? 0)%float = false) /\
    (validate_price x = true <-> is_nan x = false /\ (x <=? 0)%float = false) /\
    (is_nan x = true ->
       forall q p sp lp lo up : float,
         place_market_order symbol side x ro env log = (Return None, log) /\
         place_limit_order symbol side x p tif ro env log = (Return None, log) /\
         place_limit_order symbol side q x tif ro env log = (Return None, log) /\
         place_stop_limit_order symbol side x sp lp ro env log = (Return None, log) /\
         place_stop_limit_order symbol side q x lp ro env log = (Return None, log) /\
         place_stop_limit_order symbol side q sp x ro env log = (Return None, log) /\
         place_oco_order symbol side x p sp lp ro env log = (Return None, log) /\
         place_oco_order symbol side q x sp lp ro env log = (Return None, log) /\
         place_oco_order symbol side q p x lp ro env log = (Return None, log) /\
         place_oco_order symbol side q p sp x ro env log = (Return None, log) /\
         place_twap_order symbol side x dur n otype env log = (Return None, log) /\
         place_grid_orders symbol x up n q otype env log = (Return None, log) /\
         place_grid_orders symbol lo x n q otype env log = (Return None, log) /\
         place_grid_orders symbol lo up n x otype env log = (Return None, log)).
Proof.
  intros. split; [apply positive_amounts | split; [apply positive_amounts |]].
  intros Hnan q p sp lp lo up.
  pose proof (nan_not_positive x Hnan) as Hx.
  assert (validate_quantity x = false) as Hq by exact Hx.
  assert (validate_price x = false) as Hp by exact Hx.
  repeat split.
  - now apply market_rejects_quantity.
  - apply limit_rejects_amounts. now left.
  - apply limit_rejects_amounts. now right.
  - apply stop_limit_rejects_amounts. now left.
  - apply stop_limit_rejects_amounts. right. now left.
  - apply stop_limit_rejects_amounts. right. now right.
  - apply oco_rejects_amounts. now left.
  - apply oco_rejects_amounts. right. now left.
  - apply oco_rejects_amounts. right. right. now left.
  - apply oco_rejects_amounts. right. right. now right.
  - now apply twap_rejects_quantity.
  - apply grid_rejects_amounts. now left.
  - apply grid_rejects_amounts. right. now left.
  - apply grid_rejects_amounts. right. now right.
Qed.

(** A NaN quantity at the market builder; and infinity, which passes. *)
Lemma nan_amount_witness :
  place_market_order "BTCUSDT" "BUY" nan false Demo.healthy [] = (Return None, []) /\
  validate_quantity infinity = true.
Proof.
  pose proof (nan_amount_rejected_before_any_call Demo.healthy [] "BTCUSDT" "BUY" "GTC"
                "LIMIT" false 1 1 nan) as (_ & _ & Hnan).
  pose proof (nan_amount_rejected_before_any_call Demo.healthy [] "BTCUSDT" "BUY" "GTC"
                "LIMIT" false 1 1 infinity) as (Hinf & _ & _).
  split.
  - exact (proj1 (Hnan eq_refl 1%float 1%float 1%float 1%float 1%float 1%float)).
  - apply Hinf. split; reflexivity.
Defined.

(** ** The builders of one order *)

Ltac innermost_goal :=
  match goal with
  | |- context [match ?x with _ => _ end] =>
      lazymatch x with
      | context [match _ with _ => _ end] => fail
      | _ => destruct x eqn:?
      end
  end.

Ltac run_builder :=
  repeat first
    [ rewrite format_quantity_run
    | rewrite format_price_run
    | progress (unfold bind, ret, lift, try_except, create_order, cancel_order, perform;
                cbn beta iota)
    | innermost_goal ].

Ltac read_log :=
  cbn [fst snd]; rewrite <- ?app_assoc; rewrite ?new_events_app, ?new_events_none;
  cbn [app flat_map order_outcomes order_requests successes cancellations sleeps
       filter is_ticker is_lookup option_list returned List.length].

Lemma market_contract symbol side q ro env log0 :
  single_order_contract log0 (place_market_order symbol side q ro env log0).
Proof.
  unfold single_order_contract, place_market_order. run_builder.
  all: read_log; repeat split; auto.
Qed.

Lemma limit_contract symbol side q p tif ro env log0 :
  single_order_contract log0 (place_limit_order symbol side q p tif ro env log0).
Proof.
  unfold single_order_contract, place_limit_order. run_builder.
  all: read_log; repeat split; auto.
Qed.

Lemma stop_limit_contract symbol side q sp lp ro env log0 :
  single_order_contract log0 (place_stop_limit_order symbol side q sp lp ro env log0).
Proof.
  unfold single_order_contract, place_stop_limit_order. run_builder.
  all: read_log; repeat split; auto.
Qed.

(** X6. The market, limit and stop-limit builders submit at most one order
    per call and never retry: the orders the exchange accepted during the
    call are exactly the order returned (none when the result is null or an
    exception), and the call issues no cancellation, no pause and no ticker
    fetch. *)
Theorem single_order_builders_report_what_was_placed :
  forall (env : Env) (log0 : Log) (symbol side tif : string) (ro : bool) (q p sp lp : float),
    single_order_contract log0 (place_market_order symbol side q ro env log0) /\
    single_order_contract log0 (place_limit_order symbol side q p tif ro env log0) /\
    single_order_contract log0 (place_stop_limit_order symbol side q sp lp ro env log0).
Proof.
  intros. split; [| split].
  - apply market_contract.
  - apply limit_contract.
  - apply stop_limit_contract.
Qed.






Lemma formatted_lookup_found precision x r symbol v :
  format_with precision x r symbol = Return (Some v) ->
  lookup_failed symbol (EvExchangeInfo r) = false.
Proof.
  intro H. apply format_with_some in H. destruct H as (symbols & info & -> & Hf & _).
  simpl. now rewrite Hf.
Qed.

Ltac found :=
  repeat match goal with
         | H : format_with _ _ _ _ = Return (Some _) |- _ =>
             apply formatted_lookup_found in H
         end.

Ltac run_oco :=
  unfold place_oco_order, oco_try;
  repeat first
    [ progress cbn [_cancel_oco_orders]
    | rewrite format_quantity_run
    | rewrite format_price_run
    | progress (unfold bind, ret, lift, try_except, create_order, cancel_order, perform;
                cbn beta iota)
    | innermost_goal ].

(** X8. Nothing is cached: a call that reaches the exchange and does not
    raise looks the symbol metadata up once per value it formats, whether or
    not an order follows: once in the market builder, twice in the limit
    builder, three times in the stop-limit and OCO builders. *)
Theorem metadata_is_fetched_for_every_formatted_value :
  forall (env : Env) (log0 : Log) (symbol side tif : string) (ro : bool) (q p sp lp : float),
    (let run := place_market_order symbol side q ro env log0 in
     new_events log0 (snd run) <> [] -> raises (fst run) = false ->
     count_events is_lookup (new_events log0 (snd run)) = 1) /\
    (let run := place_limit_order symbol side q p tif ro env log0 in
     new_events log0 (snd run) <> [] -> raises (fst run) = false ->
     count_events is_lookup (new_events log0 (snd run)) = 2) /\
    (let run := place_stop_limit_order symbol side q sp lp ro env log0 in
     new_events log0 (snd run) <> [] -> raises (fst run) = false ->
     count_events is_lookup (new_events log0 (snd run)) = 3) /\
    (let run := place_oco_order symbol side q p sp lp ro env log0 in
     new_events log0 (snd run) <> [] -> raises (fst run) = false ->
     count_events is_lookup (new_events log0 (snd run)) = 3).
Proof.
  intros. unfold count_events. split; [| split; [| split]]; cbv zeta.
  - unfold place_market_order. run_builder.
    all: read_log; intros Hne Hr; try reflexivity; try discriminate Hr; now contradiction Hne.
  - unfold place_limit_order. run_builder.
    all: read_log; intros Hne Hr; try reflexivity; try discriminate Hr; now contradiction Hne.
  - unfold place_stop_limit_order. run_builder.
    all: read_log; intros Hne Hr; try reflexivity; try discriminate Hr; now contradiction Hne.
  - run_oco.
    all: read_log; intros Hne Hr; try reflexivity; try discriminate Hr; now contradiction Hne.
Qed.

(** A limit order against the scripted exchange: two lookups. *)
Lemma metadata_fetch_witness :
  count_events is_lookup
    (new_events [] (snd (place_limit_order "BTCUSDT" "BUY" 1 50000 "GTC" false
                           Demo.healthy []))) = 2.
Proof.
  apply (proj1 (proj2 (metadata_is_fetched_for_every_formatted_value Demo.healthy []
                         "BTCUSDT" "BUY" "GTC" false 1 50000 1 1))).
  - vm_compute. discriminate.
  - reflexivity.
Defined.

(** X9. A symbol the exchange does not list is never traded: when one of
    the metadata lookups of a market, limit, stop-limit or OCO call finds
    nothing, because the request failed or the symbol is not in the answer,
    the call submits no order at all and returns no order. *)
Theorem unlisted_symbol_places_no_order :
  forall (env : Env) (log0 : Log) (symbol side tif : string) (ro : bool) (q p sp lp : float),
    (let run := place_market_order symbol side q ro env log0 in
     existsb (lookup_failed symbol) (new_events log0 (snd run)) = true ->
     order_outcomes (new_events log0 (snd run)) = [] /\ returned (fst run) = None) /\
    (let run := place_limit_order symbol side q p tif ro env log0 in
     existsb (lookup_failed symbol) (new_events log0 (snd run)) = true ->
     order_outcomes (new_events log0 (snd run)) = [] /\ returned (fst run) = None) /\
    (let run := place_stop_limit_order symbol side q sp lp ro env log0 in
     existsb (lookup_failed symbol) (new_events log0 (snd run)) = true ->
     order_outcomes (new_events log0 (snd run)) = [] /\ returned (fst run) = None) /\
    (let run := place_oco_order symbol side q p sp lp ro env log0 in
     existsb (lookup_failed symbol) (new_events log0 (snd run)) = true ->
     order_outcomes (new_events log0 (snd run)) = [] /\ returned (fst run) = None).
Proof.
  intros. split; [| split; [| split]]; cbv zeta.
  - unfold place_market_order. run_builder.
    all: read_log; found; rewrite <- ?app_assoc in *; cbn [app] in *;
      cbn [existsb]; intro H; try (split; reflexivity).
    all: repeat match goal with E : lookup_failed _ _ = false |- _ => rewrite E in H; clear E end;
      cbn in H; discriminate H.
  - unfold place_limit_order. run_builder.
    all: read_log; found; rewrite <- ?app_assoc in *; cbn [app] in *;
      cbn [existsb]; intro H; try (split; reflexivity).
    all: repeat match goal with E : lookup_failed _ _ = false |- _ => rewrite E in H; clear E end;
      cbn in H; discriminate H.
  - unfold place_stop_limit_order. run_builder.
    all: read_log; found; rewrite <- ?app_assoc in *; cbn [app] in *;
      cbn [existsb]; intro H; try (split; reflexivity).
    all: repeat match goal with E : lookup_failed _ _ = false |- _ => rewrite E in H; clear E end;
      cbn in H; discriminate H.
  - run_oco.
    all: read_log; found; rewrite <- ?app_assoc in *; cbn [app] in *;
      cbn [existsb]; intro H; try (split; reflexivity).
    all: repeat match goal with E : lookup_failed _ _ = false |- _ => rewrite E in H; clear E end;
      cbn in H; discriminate H.
Qed.

(** The pair ['ETHUSDT'] passes the local checks but is not listed by the
    scripted exchange. *)
Lemma unlisted_symbol_witness :
  order_outcomes
    (new_events [] (snd (place_stop_limit_order "ETHUSDT" "BUY" 1 51000 50900 false
                           Demo.healthy []))) = [] /\
  returned (fst (place_stop_limit_order "ETHUSDT" "BUY" 1 51000 50900 false
                   Demo.healthy [])) = None.
Proof.
  apply (proj1 (proj2 (proj2 (unlisted_symbol_places_no_order Demo.healthy []
                                "ETHUSDT" "BUY" "GTC" false 1 50000 51000 50900)))).
  vm_compute. reflexivity.
Defined.

(** X10. The OCO builder compensates, and only then: an OCO call submits
    at most two orders; when the stop order was accepted and the take-profit
    submission failed, the call requests the cancellation of the stop order
    by its id (none when the response carries no id) and returns the null
    result whatever the cancellation answers; in every other run, a failed
    first submission and the success of both included, no cancellation is
    requested. *)
Theorem oco_cancels_the_stop_when_the_take_profit_fails :
  forall (env : Env) (log0 : Log) (symbol side : string) (q p sp lp : float) (ro : bool),
    let run := place_oco_order symbol side q p sp lp ro env log0 in
    let delta := new_events log0 (snd run) in
    match order_outcomes delta with
    | [] => cancellations delta = [] /\ returned (fst run) = None
    | [inl _] => cancellations delta = [] /\ fst run = Return None
    | [inr stop_order; inl _] =>
        cancellations delta
          = match orderId stop_order with
            | Some oid => [(symbol, oid)]
            | None => []
            end /\
        fst run = Return None
    | [inr stop_order; inr take_profit_order] =>
        cancellations delta = [] /\
        fst run = Return (Some [("stop_loss"%string, stop_order);
                                ("take_profit"%string, take_profit_order)])
    | _ => False
    end.
Proof.
  intros. subst run delta.
  match goal with
  | |- context C [place_oco_order ?a ?b ?c ?d ?e ?f ?g ?h ?i] =>
      pattern (place_oco_order a b c d e f g h i)
  end.
  match goal with |- ?P _ => set (contract := P) end.
  run_oco.
  all: subst contract; cbn beta; read_log; rewrite ?app_nil_r.
  all: repeat match goal with E : orderId _ = _ |- _ => rewrite E; clear E end.
  all: split; reflexivity.
Qed.

(** * The clock checks *)

(** The startup check with its log records asks and swallows exactly what
    the plain startup check does. *)
Lemma sync_records_same_requests (local_time : Z) (env : Env) (log : Log) :
  snd (_sync_server_time_records local_time env log) = snd (_sync_server_time env log).
Proof.
  unfold _sync_server_time_records, _sync_server_time, try_except, bind, ret,
    server_time, perform.
  destruct (requests_get_time env log) as [e | server]; cbn; [reflexivity |].
  destruct (1000 <? Z.abs (server - local_time)); reflexivity.
Qed.

Lemma check_time_sync_run (local_time : Z) (env : Env) (log : Log) :
  check_time_sync local_time env log =
  (Return
     match requests_get_time env log with
     | inr server =>
         {| synced := Z.abs (server - local_time) <? 1000;
            time_diff_ms := Some (server - local_time);
            report_server_time := Some server;
            report_local_time := Some local_time;
            error := None;
            status := if Z.abs (server - local_time) <? 1000 then "OK" else "OUT_OF_SYNC" |}
     | inl e =>
         {| synced := false; time_diff_ms := None; report_server_time := None;
            report_local_time := None; error := Some e; status := "ERROR" |}
     end,
   log ++ [EvServerTime (requests_get_time env log)]).
Proof.
  unfold check_time_sync, try_except, bind, ret, server_time, perform.
  destruct (requests_get_time env log) as [e | server]; reflexivity.
Qed.

Lemma sync_records_run (local_time : Z) (env : Env) (log : Log) :
  _sync_server_time_records local_time env log =
  (Return
     match requests_get_time env log with
     | inr server =>
         if 1000 <? Z.abs (server - local_time)
         then [LogWarning (TimeDifferenceDetected (server - local_time));
               LogWarning ConsiderSyncing]
         else [LogInfo (TimeSynchronized (server - local_time))]
     | inl e => [LogWarning (CouldNotSync e); LogWarning ContinuingAnyway]
     end,
   log ++ [EvServerTime (requests_get_time env log)]).
Proof.
  unfold _sync_server_time_records, try_except, bind, ret, server_time, perform.
  destruct (requests_get_time env log) as [e | server]; cbn; [reflexivity |].
  destruct (1000 <? Z.abs (server - local_time)); reflexivity.
Qed.

(** X11. [check_time_sync] never raises and makes one request, the one for
    the server time, whatever that request answers.  Its report says
    [synced] exactly when its status is OK, which is exactly when the
    request was answered with a server time strictly less than 1000 ms from
    the local clock; the status is ERROR exactly when the request failed,
    and then the report carries the error and no time difference. *)
Theorem check_time_sync_never_raises_and_classifies :
  forall (env : Env) (log : Log) (local_time : Z),
    let run := check_time_sync local_time env log in
    exists report : SyncReport,
      fst run = Return report /\
      new_events log (snd run) = [EvServerTime (requests_get_time env log)] /\
      (synced report = true <-> status report = "OK"%string) /\
      (status report = "OK"%string <->
         exists server, requests_get_time env log = inr server /\
                        Z.abs (server - local_time) < 1000) /\
      (status report = "ERROR"%string <->
         exists e, requests_get_time env log = inl e) /\
      (forall e, requests_get_time env log = inl e ->
                 error report = Some e /\ time_diff_ms report = None) /\
      (forall server, requests_get_time env log = inr server ->
                 error report = None /\ time_diff_ms report = Some (server - local_time)).
Proof.
  intros env log local_time run. subst run. rewrite check_time_sync_run.
  eexists. split; [reflexivity |]. cbn [fst snd]. rewrite new_events_app.
  split; [reflexivity |].
  destruct (requests_get_time env log) as [e | server]; cbn;
    [| destruct (Z.abs (server - local_time) <? 1000) eqn:Hd; cbn;
       [apply Z.ltb_lt in Hd | apply Z.ltb_ge in Hd]].
  all: repeat split; try discriminate; intros.
  all: repeat match goal with
         | H : exists _, _ |- _ => destruct H
         | H : _ /\ _ |- _ => destruct H
         | H : inl _ = inl _ |- _ => inversion H; subst; clear H
         | H : inr _ = inr _ |- _ => inversion H; subst; clear H
         end.
  all: try discriminate; try reflexivity; try lia; eauto.
Qed.

(** X12. The two clock checks use different thresholds.  On the same
    readings (the same answer to the server-time request, the same local
    clock) the startup check [_sync_server_time] logs [Time synchronized]
    while [check_time_sync] reports OUT_OF_SYNC exactly when the clocks are
    1000 ms apart; at every other distance they agree: the startup check
    warns of a time difference exactly when the report is OUT_OF_SYNC.  The
    startup check never logs a warning of a time difference for a report
    that says OK. *)
Theorem clock_checks_disagree_at_exactly_one_second :
  forall (env : Env) (log : Log) (local_time server : Z),
    requests_get_time env log = inr server ->
    exists (records : list LogRecord) (report : SyncReport),
      fst (_sync_server_time_records local_time env log) = Return records /\
      fst (check_time_sync local_time env log) = Return report /\
      ((records = [LogInfo (TimeSynchronized (server - local_time))] /\
        status report = "OUT_OF_SYNC"%string)
       <-> Z.abs (server - local_time) = 1000) /\
      (Z.abs (server - local_time) <> 1000 ->
       (records = [LogWarning (TimeDifferenceDetected (server - local_time));
                   LogWarning ConsiderSyncing]
        <-> status report = "OUT_OF_SYNC"%string)) /\
      (status report = "OK"%string ->
       records = [LogInfo (TimeSynchronized (server - local_time))]).
Proof.
  intros env log local_time server Hanswer.
  rewrite sync_records_run, check_time_sync_run, Hanswer.
  do 2 eexists. split; [reflexivity |]. split; [reflexivity |]. cbn.
  destruct (1000 <? Z.abs (server - local_time)) eqn:Hw;
    destruct (Z.abs (server - local_time) <? 1000) eqn:Hs; cbn.
  all: try apply Z.ltb_lt in Hw; try apply Z.ltb_ge in Hw.
  all: try apply Z.ltb_lt in Hs; try apply Z.ltb_ge in Hs.
  all: try lia.
  all: repeat split; try discriminate; try reflexivity; try lia.
  all: try (intros [H1 H2]; discriminate).
  all: try (intros; exfalso; lia).
Qed.

Lemma clock_checks_witness :
  let env := {| futures_exchange_info := futures_exchange_info Demo.healthy;
                futures_symbol_ticker := futures_symbol_ticker Demo.healthy;
                futures_create_order := futures_create_order Demo.healthy;
                futures_cancel_order := futures_cancel_order Demo.healthy;
                futures_account := futures_account Demo.healthy;
                requests_get_time := fun _ => inr 1700000001000;
                time_sleep := time_sleep Demo.healthy |} in
  requests_get_time env [] = inr 1700000001000 /\
  exists (records : list LogRecord) (report : SyncReport),
    fst (_sync_server_time_records 1700000000000 env []) = Return records /\
    fst (check_time_sync 1700000000000 env []) = Return report /\
    ((records = [LogInfo (TimeSynchronized (1700000001000 - 1700000000000))] /\
      status report = "OUT_OF_SYNC"%string)
     <-> Z.abs (1700000001000 - 1700000000000) = 1000) /\
    (Z.abs (1700000001000 - 1700000000000) <> 1000 ->
     (records = [LogWarning (TimeDifferenceDetected (1700000001000 - 1700000000000));
                 LogWarning ConsiderSyncing]
      <-> status report = "OUT_OF_SYNC"%string)) /\
    (status report = "OK"%string ->
     records = [LogInfo (TimeSynchronized (1700000001000 - 1700000000000))]).
Proof.
  intro env. split; [reflexivity |].
  apply (clock_checks_disagree_at_exactly_one_second env [] 1700000000000 1700000001000).
  reflexivity.
Defined.

(** * The pacing and the requests of the TWAP builder *)

Lemma sleeps_app (d1 d2 : Log) : sleeps (d1 ++ d2) = sleeps d1 ++ sleeps d2.
Proof. apply flat_map_app. Qed.

Lemma cancellations_app (d1 d2 : Log) :
  cancellations (d1 ++ d2) = cancellations d1 ++ cancellations d2.
Proof. apply flat_map_app. Qed.

Lemma quotes_app (d1 d2 : Log) : quotes (d1 ++ d2) = quotes d1 ++ quotes d2.
Proof. apply flat_map_app. Qed.

Lemma accepted_removelast {A : Type} (rs : list (Response A)) :
  forallb accepted rs = true -> forallb accepted (removelast rs) = true.
Proof.
  induction rs as [| r rs IH]; [reflexivity |].
  cbn [forallb]. intro H. apply andb_prop in H. destruct H as [Hr Hrs].
  destruct rs as [| r' rs]; [reflexivity |].
  change (removelast (r :: r' :: rs)) with (r :: removelast (r' :: rs)).
  cbn [forallb]. rewrite Hr. now apply IH.
Qed.

Lemma stops_at_first_failure_app (o1 o2 : list (Response OrderResponse)) :
  forallb accepted o1 = true ->
  stops_at_first_failure o2 = true ->
  stops_at_first_failure (o1 ++ o2) = true.
Proof.
  unfold stops_at_first_failure. intros H1 H2.
  destruct o2 as [| r o2].
  - rewrite app_nil_r. now apply accepted_removelast.
  - rewrite removelast_app by discriminate. rewrite forallb_app, H1. exact H2.
Qed.

Lemma pauses_follow_fills_weaken (filled : bool) (d : Log) :
  pauses_follow_fills false d = true -> pauses_follow_fills filled d = true.
Proof.
  destruct d as [| ev d]; [reflexivity |].
  destruct ev; cbn; try (intro H; exact H). discriminate.
Qed.

Lemma pauses_follow_fills_app (d1 d2 : Log) : forall filled,
  pauses_follow_fills filled d1 = true ->
  pauses_follow_fills false d2 = true ->
  pauses_follow_fills filled (d1 ++ d2) = true.
Proof.
  induction d1 as [| ev d1 IH]; intros filled H1 H2; cbn [app].
  - now apply pauses_follow_fills_weaken.
  - destruct ev as [r | s r | req [e | o] | s oid r | r | r | s r]; cbn in *;
      try (apply IH; assumption).
    apply andb_prop in H1. destruct H1 as [-> H1]. cbn. now apply IH.
Qed.



Lemma twap_request_shape_more symbol side order_type fq quoted more req :
  twap_request_shape symbol side order_type fq quoted req ->
  twap_request_shape symbol side order_type fq (quoted ++ more) req /\
  twap_request_shape symbol side order_type fq (more ++ quoted) req.
Proof.
  unfold twap_request_shape. intros (H1 & H2 & H3 & H4 & H5 & H6).
  destruct (String.eqb order_type "MARKET"); [repeat split; tauto |].
  destruct H6 as (H6 & H7 & P & prec & fp & Hin & H8 & H9).
  split; repeat split; try assumption; exists P, prec, fp;
    (split; [apply in_or_app; tauto | split; assumption]).
Qed.

Section TwapPacing.
Variables (symbol side order_type : string) (fq interval_seconds : float) (num_intervals : Z).

Let body := twap_body symbol side order_type fq interval_seconds num_intervals.

Lemma twap_body_pacing i orders env log orders' out log' :
  body i orders env log = ((orders', out), log') ->
  exists d, log' = log ++ d /\
    twap_pacing interval_seconds num_intervals [i] d /\
    Forall (twap_request_shape symbol side order_type fq (quotes d)) (order_requests d).
Proof.
  unfold body, twap_body, twap_interval_order, symbol_ticker, create_order, sleep.
  unfold bind, perform, ret.
  intro H. destruct (String.eqb order_type "MARKET") eqn:Hty.
  all: split_matches H.
  all: try discriminate.
  all: inversion H; subst; clear H.
  all: eexists; split; [extension |].
  all: unfold twap_pacing, paused_turns, twap_request_shape, twap_price_factor;
    rewrite Hty; cbn; rewrite ?app_nil_r.
  all: sync; cbn.
  all: repeat split; try reflexivity; try discriminate; auto; try lia.
  all: repeat constructor; try reflexivity.
  all: do 3 eexists; split; [left; reflexivity |]; split; [reflexivity | eassumption].
Qed.

Lemma twap_loop_pacing xs : forall orders env log orders' out log',
  for_each body xs orders env log = ((orders', out), log') ->
  exists d, log' = log ++ d /\
    twap_pacing interval_seconds num_intervals xs d /\
    Forall (twap_request_shape symbol side order_type fq (quotes d)) (order_requests d).
Proof.
  induction xs as [| x xs IH]; intros orders env log orders' out log' H; cbn [for_each] in H.
  - inversion H; subst. exists []. rewrite app_nil_r. split; [reflexivity |].
    split; [| constructor]. unfold twap_pacing. cbn. repeat split; auto.
  - destruct (body x orders env log) as [[s1 o1] l1] eqn:Hb.
    apply twap_body_pacing in Hb.
    destruct Hb as (d1 & -> & (Hf1 & Hs1 & Hn1 & Hp1 & He1 & Hc1) & Hr1).
    assert (List.length (paused_turns num_intervals (x :: xs))
            = (List.length (paused_turns num_intervals [x])
               + List.length (paused_turns num_intervals xs))%nat) as Hturns.
    { unfold paused_turns. cbn [filter]. destruct (x <? num_intervals - 1); reflexivity. }
    cbn [List.length] in Hn1, He1.
    destruct o1 as [u | e].
    + apply IH in H.
      destruct H as (d2 & -> & (Hf2 & Hs2 & Hn2 & Hp2 & He2 & Hc2) & Hr2).
      exists (d1 ++ d2). split; [now rewrite app_assoc |]. split; [unfold twap_pacing |].
      * rewrite sleeps_app, order_outcomes_app, successes_app, cancellations_app,
          !length_app, Hturns, Hc1, Hc2. cbn [List.length].
        refine (conj _ (conj _ (conj _ (conj _ (conj _ _))))); [| | | | | reflexivity].
        -- now apply pauses_follow_fills_app.
        -- apply Forall_app. now split.
        -- lia.
        -- lia.
        -- intro Hall. rewrite He1, He2 by lia. reflexivity.
      * rewrite order_requests_app, quotes_app. apply Forall_app. split.
        -- eapply Forall_impl; [| exact Hr1]. intros req Hreq.
           exact (proj1 (twap_request_shape_more _ _ _ _ _ (quotes d2) _ Hreq)).
        -- eapply Forall_impl; [| exact Hr2]. intros req Hreq.
           exact (proj2 (twap_request_shape_more _ _ _ _ _ (quotes d1) _ Hreq)).
    + inversion H; subst. exists d1. split; [reflexivity |]. split; [| exact Hr1].
      unfold twap_pacing. rewrite Hturns. cbn [List.length].
      refine (conj _ (conj _ (conj _ (conj _ (conj _ _))))); auto; try lia.
      intro Hall.
      assert (xs = []) as -> by (destruct xs; [reflexivity | cbn [List.length] in Hall; lia]).
      rewrite He1 by exact Hall. unfold paused_turns. cbn [filter List.length]. lia.
Qed.

Lemma twap_body_failures i orders env log orders' out log' :
  body i orders env log = ((orders', out), log') ->
  exists d, log' = log ++ d /\ twap_failures 1 out d.
Proof.
  unfold body, twap_body, twap_interval_order, symbol_ticker, create_order, sleep.
  unfold bind, perform, ret.
  intro H. destruct (String.eqb order_type "MARKET") eqn:Hty.
  all: split_matches H.
  all: try discriminate.
  all: inversion H; subst; clear H.
  all: eexists; split; [extension |].
  all: unfold twap_failures, stops_at_first_failure; cbn; rewrite ?app_nil_r.
  all: refine (conj _ (conj eq_refl _)); [try discriminate; reflexivity | lia].
Qed.

Lemma twap_loop_failures xs : forall orders env log orders' out log',
  for_each body xs orders env log = ((orders', out), log') ->
  exists d, log' = log ++ d /\ twap_failures (List.length xs) out d.
Proof.
  induction xs as [| x xs IH]; intros orders env log orders' out log' H; cbn [for_each] in H.
  - inversion H; subst. exists []. rewrite app_nil_r. split; [reflexivity |].
    unfold twap_failures. cbn. auto.
  - destruct (body x orders env log) as [[s1 o1] l1] eqn:Hb.
    apply twap_body_failures in Hb. destruct Hb as (d1 & -> & Ha1 & Hf1 & Hn1).
    destruct o1 as [u | e].
    + apply IH in H. destruct H as (d2 & -> & Ha2 & Hf2 & Hn2).
      exists (d1 ++ d2). split; [now rewrite app_assoc |]. unfold twap_failures.
      rewrite order_outcomes_app, length_app. cbn [List.length].
      refine (conj _ (conj _ _)).
      * intro Hout. rewrite forallb_app, Ha1, Ha2 by auto. reflexivity.
      * apply stops_at_first_failure_app; [now apply Ha1 | exact Hf2].
      * lia.
    + inversion H; subst. exists d1. split; [reflexivity |].
      refine (conj Ha1 (conj Hf1 _)). cbn [List.length]. lia.
Qed.

End TwapPacing.

Ltac stopped_early :=
  left; unfold ret; cbn [fst snd]; rewrite ?new_events_none, ?new_events_app;
  repeat split; reflexivity.

(** What a call of the TWAP builder leaves in the log: nothing or one
    metadata lookup when it stops before its loop, and otherwise the lookup
    followed by the stretch of the loop over [range num_intervals]. *)
Lemma place_twap_order_paced env log0 symbol side Q dur n otype :
  (order_requests (new_events log0 (snd (place_twap_order symbol side Q dur n otype env log0)))
     = [] /\
   sleeps (new_events log0 (snd (place_twap_order symbol side Q dur n otype env log0))) = [] /\
   cancellations (new_events log0 (snd (place_twap_order symbol side Q dur n otype env log0)))
     = [] /\
   pauses_follow_fills false
     (new_events log0 (snd (place_twap_order symbol side Q dur n otype env log0))) = true /\
   returned (fst (place_twap_order symbol side Q dur n otype env log0)) = None) \/
  (exists seconds fq d out,
     0 < n /\
     int_truediv (dur * 60) n = Return seconds /\
     new_events log0 (snd (place_twap_order symbol side Q dur n otype env log0))
       = EvExchangeInfo (futures_exchange_info env log0) :: d /\
     twap_pacing seconds n (range n) d /\
     Forall (twap_request_shape symbol side otype fq (quotes d)) (order_requests d) /\
     fst (place_twap_order symbol side Q dur n otype env log0)
       = Return (twap_result (successes (order_outcomes d)) out) /\
     twap_failures (Z.to_nat n) out d).
Proof.
  unfold place_twap_order.
  destruct (validate_symbol symbol); cbn [negb]; [| stopped_early].
  destruct (valid_side side); cbn [negb]; [| stopped_early].
  destruct (validate_quantity Q); cbn [negb]; [| stopped_early].
  destruct (dur <=? 0); cbn [orb]; [stopped_early |].
  destruct (n <=? 0) eqn:Hn; [stopped_early |].
  destruct (valid_twap_order_type otype); cbn [negb]; [| stopped_early].
  apply Z.leb_gt in Hn.
  unfold bind, lift, float_div_int.
  destruct (int_to_float n) as [nf | e] eqn:Hnf; cbn [outcome_bind]; [| stopped_early].
  destruct (int_truediv (dur * 60) n) as [secs | e]; [| stopped_early].
  rewrite format_quantity_run.
  destruct (format_with quantityPrecision (Q / nf) (futures_exchange_info env log0) symbol)
    as [[fq |] | e] eqn:Hf; [| stopped_early | stopped_early].
  destruct (for_each _ _ _ _ _) as [[orders out] l2] eqn:Hloop.
  pose proof Hloop as Hloop'. pose proof Hloop as Hloop''.
  apply twap_loop_stretch in Hloop. destruct Hloop as (d & -> & Hs & _).
  apply twap_loop_pacing in Hloop'. destruct Hloop' as (d' & Heq & Hpace & Hshape).
  apply app_inv_head in Heq. subst d'. cbn [app] in Hs. subst orders.
  apply twap_loop_failures in Hloop''. destruct Hloop'' as (d' & Heq & Hfail).
  apply app_inv_head in Heq. subst d'. rewrite range_length in Hfail.
  right. exists secs, fq, d, out. split; [exact Hn |]. split; [reflexivity |].
  assert (forall A (res : A), new_events log0
            (snd (res, (log0 ++ [EvExchangeInfo (futures_exchange_info env log0)]) ++ d))
          = EvExchangeInfo (futures_exchange_info env log0) :: d) as Hlog.
  { intros A res. cbn [snd]. rewrite <- app_assoc. apply new_events_app. }
  destruct out as [u | e]; cbn [fst]; rewrite Hlog.
  all: refine (conj eq_refl (conj Hpace (conj Hshape (conj _ Hfail)))).
  all: unfold twap_result; destruct (successes (order_outcomes d)); reflexivity.
Qed.





(** X19. A TWAP call stops at the first rejected order and reports what was
    accepted: it submits at most [num_intervals] orders and none after a
    rejected one; the list it returns is exactly the list of the accepted
    orders' responses, in order (possibly empty, when every interval was
    skipped), and the null result or an exception means that no order was
    accepted. *)
Theorem twap_stops_at_the_first_rejected_order :
  forall (env : Env) (log0 : Log) (symbol side : string) (total_quantity : float)
         (duration_minutes num_intervals : Z) (order_type : string),
    let run := place_twap_order symbol side total_quantity duration_minutes num_intervals
                 order_type env log0 in
    let delta := new_events log0 (snd run) in
    stops_at_first_failure (order_outcomes delta) = true /\
    (List.length (order_outcomes delta) <= Z.to_nat num_intervals)%nat /\
    match returned (fst run) with
    | Some orders => orders = successes (order_outcomes delta)
    | None => successes (order_outcomes delta) = []
    end.
Proof.
  intros env log0 symbol side Q dur n otype run delta. subst delta run.
  destruct (place_twap_order_paced env log0 symbol side Q dur n otype)
    as [(Hr & _ & _ & _ & ->)
       | (secs & fq & d & out & Hn & _ & -> & _ & _ & -> & _ & Hstop & Hcount)].
  - pose proof (requests_as_many_as_outcomes
                  (new_events log0 (snd (place_twap_order symbol side Q dur n otype env log0))))
      as Hlen.
    rewrite Hr in Hlen.
    destruct (order_outcomes _); [| discriminate Hlen].
    cbn. refine (conj eq_refl (conj _ eq_refl)). lia.
  - change (order_outcomes (EvExchangeInfo (futures_exchange_info env log0) :: d))
      with (order_outcomes d).
    refine (conj Hstop (conj Hcount _)).
    cbn [returned]. unfold twap_result.
    destruct out, (successes (order_outcomes d)); reflexivity.
Qed.

(** * The two loops of the grid builder *)

Lemma ticker_events_app (d1 d2 : Log) :
  filter is_ticker (d1 ++ d2) = filter is_ticker d1 ++ filter is_ticker d2.
Proof. apply filter_app. Qed.

Lemma grid_request_shape_incl symbol side order_type fq prices prices' req :
  incl prices prices' ->
  grid_request_shape symbol side order_type fq prices req ->
  grid_request_shape symbol side order_type fq prices' req.
Proof.
  unfold grid_request_shape. intros Hincl (H1 & H2 & H3 & H4 & H5 & H6).
  refine (conj H1 (conj H2 (conj H3 (conj H4 (conj H5 _))))).
  destruct (String.eqb order_type "LIMIT"); [| exact H6].
  destruct H6 as (H6 & H7 & p & prec & fp & Hin & H8 & H9).
  refine (conj H6 (conj H7 _)). exists p, prec, fp. auto.
Qed.

Section GridLoop.
Variables (symbol side order_type : string) (fq : float).

Lemma grid_submit_stretch price orders env log orders' out log' :
  grid_submit symbol side order_type fq price orders env log = ((orders', out), log') ->
  exists d, log' = log ++ d /\
    grid_stretch symbol side order_type fq [price] orders orders' out d.
Proof.
  unfold grid_submit, create_order, perform. intro H.
  split_matches H.
  all: try discriminate.
  all: inversion H; subst; clear H.
  all: eexists; split; [extension |].
  all: unfold grid_stretch, stops_at_first_failure, grid_request_shape, grid_request.
  all: cbn; rewrite ?app_nil_r.
  all: refine (conj eq_refl (conj _ (conj _ (conj eq_refl (conj _
                 (conj eq_refl (conj eq_refl eq_refl))))))).
  all: try apply Forall_nil; try (apply Forall_cons; [| apply Forall_nil]).
  all: try discriminate; try reflexivity; try lia.
  all: destruct (String.eqb order_type "LIMIT"); cbn.
  all: refine (conj eq_refl (conj eq_refl (conj eq_refl (conj eq_refl (conj eq_refl _))))).
  all: try (repeat split; reflexivity).
  all: refine (conj eq_refl (conj eq_refl _)).
  all: do 3 eexists; split; [left; reflexivity |]; split; [reflexivity | eassumption].
Qed.

Lemma grid_loop_stretch prices : forall orders env log orders' out log',
  for_each (grid_submit symbol side order_type fq) prices orders env log
    = ((orders', out), log') ->
  exists d, log' = log ++ d /\
    grid_stretch symbol side order_type fq prices orders orders' out d.
Proof.
  induction prices as [| p prices IH]; intros orders env log orders' out log' H;
    cbn [for_each] in H.
  - inversion H; subst. exists []. rewrite app_nil_r. split; [reflexivity |].
    unfold grid_stretch. cbn. rewrite app_nil_r.
    refine (conj eq_refl (conj _ (conj _ (conj eq_refl (conj _
              (conj eq_refl (conj eq_refl eq_refl))))))); auto.
  - destruct (grid_submit symbol side order_type fq p orders env log) as [[s1 o1] l1] eqn:Hb.
    apply grid_submit_stretch in Hb.
    destruct Hb as (d1 & -> & Ho1 & Hr1 & Hn1 & Hf1 & Ha1 & Hs1 & Hc1 & Ht1).
    cbn [List.length] in Hn1.
    destruct o1 as [u | e].
    + apply IH in H.
      destruct H as (d2 & -> & Ho2 & Hr2 & Hn2 & Hf2 & Ha2 & Hs2 & Hc2 & Ht2).
      exists (d1 ++ d2). split; [now rewrite app_assoc |]. unfold grid_stretch.
      rewrite order_outcomes_app, successes_app, order_requests_app, sleeps_app,
        cancellations_app, ticker_events_app, Hs1, Hs2, Hc1, Hc2, Ht1, Ht2, length_app.
      cbn [List.length app].
      refine (conj _ (conj _ (conj _ (conj _ (conj _
                (conj eq_refl (conj eq_refl eq_refl))))))).
      * subst. now rewrite app_assoc.
      * apply Forall_app. split.
        -- eapply Forall_impl; [| exact Hr1]. intro req.
           apply grid_request_shape_incl. intros x [<- | []]. now left.
        -- eapply Forall_impl; [| exact Hr2]. intro req.
           apply grid_request_shape_incl. intros x Hx. now right.
      * lia.
      * apply stops_at_first_failure_app; [now apply Ha1 | exact Hf2].
      * intro Hout. rewrite forallb_app, Ha1, Ha2 by auto. reflexivity.
    + inversion H; subst. exists d1. split; [reflexivity |]. unfold grid_stretch.
      refine (conj eq_refl (conj _ (conj _ (conj Hf1 (conj Ha1
                (conj Hs1 (conj Hc1 Ht1))))))).
      * eapply Forall_impl; [| exact Hr1]. intro req.
        apply grid_request_shape_incl. intros x [<- | []]. now left.
      * cbn [List.length]. lia.
Qed.

End GridLoop.

(** ** Below and above the ticker price *)






Lemma one_sided_requests symbol side order_type fq prices (d : Log) :
  Forall (grid_request_shape symbol side order_type fq prices) (order_requests d) ->
  map req_side (order_requests d) = repeat side (List.length (order_requests d)) /\
  outcomes_of_side side d = order_outcomes d /\
  (forall other, String.eqb side other = false -> outcomes_of_side other d = []).
Proof.
  induction d as [| ev d IH]; intro H; [repeat split; reflexivity |].
  destruct ev as [r | s r | req r | s oid r | r | r | s r];
    try (exact (IH H)).
  change (order_requests (EvCreateOrder req r :: d)) with (req :: order_requests d) in *.
  inversion H as [| req' l Hreq Hrest]; subst.
  destruct (IH Hrest) as (Hsides & Hsame & Hother).
  destruct Hreq as (_ & Hside & _).
  cbn [map List.length repeat]. rewrite Hsides, Hside.
  split; [reflexivity |]. split.
  - change (outcomes_of_side side (EvCreateOrder req r :: d))
      with ((if String.eqb (req_side req) side then [r] else []) ++ outcomes_of_side side d).
    rewrite Hside, String.eqb_refl, Hsame. reflexivity.
  - intros other Hne.
    change (outcomes_of_side other (EvCreateOrder req r :: d))
      with ((if String.eqb (req_side req) other then [r] else [])
            ++ outcomes_of_side other d).
    rewrite Hside, Hne. now apply Hother.
Qed.

Lemma outcomes_of_side_app side (d1 d2 : Log) :
  outcomes_of_side side (d1 ++ d2) = outcomes_of_side side d1 ++ outcomes_of_side side d2.
Proof. apply flat_map_app. Qed.

Ltac grid_stopped_early :=
  left; unfold ret; cbn [fst snd returned]; rewrite ?new_events_none, ?new_events_app;
  cbn [order_requests sleeps cancellations filter is_ticker flat_map app List.length];
  refine (conj eq_refl (conj eq_refl (conj eq_refl (conj _ eq_refl)))); lia.

(** What a call of the grid builder leaves in the log: at most a metadata
    lookup and a failed ticker fetch when it stops before its loops, and
    otherwise the lookup, the ticker fetch and the stretches of the loop
    over the points below and of the loop over the points above the quoted
    price. *)
Lemma place_grid_orders_trace env log0 symbol L U N q otype :
  (order_requests (new_events log0 (snd (place_grid_orders symbol L U N q otype env log0)))
     = [] /\
   sleeps (new_events log0 (snd (place_grid_orders symbol L U N q otype env log0))) = [] /\
   cancellations (new_events log0 (snd (place_grid_orders symbol L U N q otype env log0)))
     = [] /\
   (List.length (filter is_ticker
      (new_events log0 (snd (place_grid_orders symbol L U N q otype env log0)))) <= 1)%nat /\
   returned (fst (place_grid_orders symbol L U N q otype env log0)) = None) \/
  (exists prices fq P dbuy dsell buy sell buy_out sell_out,
     grid_prices L U N = Return prices /\
     new_events log0 (snd (place_grid_orders symbol L U N q otype env log0))
       = EvExchangeInfo (futures_exchange_info env log0) :: EvTicker symbol (inr P)
           :: dbuy ++ dsell /\
     grid_stretch symbol "BUY" otype fq (filter (fun p => (p <? P)%float) prices)
       [] buy buy_out dbuy /\
     grid_stretch symbol "SELL" otype fq (filter (fun p => (P <? p)%float) prices)
       [] sell sell_out dsell /\
     (raises buy_out = true -> dsell = [] /\ sell = []) /\
     fst (place_grid_orders symbol L U N q otype env log0)
       = Return (grid_result buy sell buy_out sell_out)).
Proof.
  unfold place_grid_orders.
  destruct (validate_symbol symbol); cbn [negb]; [| grid_stopped_early].
  destruct (validate_price L); cbn [negb orb]; [| grid_stopped_early].
  destruct (validate_price U); cbn [negb orb]; [| grid_stopped_early].
  destruct (U <=? L)%float; [grid_stopped_early |].
  destruct (N <=? 0) eqn:HN; [grid_stopped_early |].
  destruct (validate_quantity q); cbn [negb]; [| grid_stopped_early].
  destruct (valid_grid_order_type otype); cbn [negb]; [| grid_stopped_early].
  unfold bind at 1. unfold lift.
  destruct (grid_prices L U N) as [prices | e] eqn:Hprices; [| grid_stopped_early].
  unfold bind. rewrite format_quantity_run.
  destruct (format_with quantityPrecision q (futures_exchange_info env log0) symbol)
    as [[fq |] | e] eqn:Hf; [| grid_stopped_early | grid_stopped_early].
  unfold grid_try, symbol_ticker, perform.
  set (log1 := log0 ++ [EvExchangeInfo (futures_exchange_info env log0)]).
  destruct (futures_symbol_ticker env log1 symbol) as [e | P] eqn:Hticker.
  { left. subst log1. cbn [fst snd grid_partial returned]. rewrite <- app_assoc.
    rewrite new_events_app. cbn. repeat split; try reflexivity; lia. }
  rewrite buy_loop_filter.
  destruct (for_each (grid_submit symbol "BUY" otype fq) _ [] env _)
    as [[buy buy_out] log2] eqn:Hbuy.
  apply grid_loop_stretch in Hbuy. destruct Hbuy as (dbuy & -> & Hbuy).
  assert (forall d, new_events log0 ((log1 ++ [EvTicker symbol (inr P)]) ++ d)
                    = EvExchangeInfo (futures_exchange_info env log0)
                        :: EvTicker symbol (inr P) :: d) as Hlog.
  { intro d. subst log1. rewrite <- !app_assoc. apply new_events_app. }
  right. destruct buy_out as [u | e].
  - rewrite sell_loop_filter.
    destruct (for_each (grid_submit symbol "SELL" otype fq) _ [] env _)
      as [[sell sell_out] log3] eqn:Hsell.
    apply grid_loop_stretch in Hsell. destruct Hsell as (dsell & -> & Hsell).
    exists prices, fq, P, dbuy, dsell, buy, sell, (Return u), sell_out.
    split; [reflexivity |].
    destruct sell_out as [u' | e]; cbn [fst snd]; rewrite <- app_assoc, Hlog.
    all: refine (conj eq_refl (conj Hbuy (conj Hsell (conj _ eq_refl)))).
    all: intro H; discriminate H.
  - exists prices, fq, P, dbuy, [], buy, [], (Raise e), (Return tt).
    split; [reflexivity |]. cbn [fst snd]. rewrite app_nil_r, Hlog.
    refine (conj eq_refl (conj Hbuy (conj _ (conj _ eq_refl)))).
    + unfold grid_stretch, stops_at_first_failure. cbn.
      refine (conj eq_refl (conj _ (conj _ (conj eq_refl (conj _
                (conj eq_refl (conj eq_refl eq_refl))))))); auto. lia.
    + intros _. split; reflexivity.
Qed.



(** X17. The result of a grid call lists exactly what the exchange
    accepted, by side and in submission order: [buy_orders] are the
    responses to the accepted BUY submissions and [sell_orders] those to the
    accepted SELL submissions; the null result (also by an exception) means
    that no order was accepted. *)
Theorem grid_result_lists_the_accepted_orders_by_side :
  forall (env : Env) (log0 : Log) (symbol : string) (lower_price upper_price : float)
         (grid_levels : Z) (quantity_per_grid : float) (order_type : string),
    let run := place_grid_orders symbol lower_price upper_price grid_levels
                 quantity_per_grid order_type env log0 in
    let delta := new_events log0 (snd run) in
    match returned (fst run) with
    | Some result =>
        buy_orders result = successes (outcomes_of_side "BUY" delta) /\
        sell_orders result = successes (outcomes_of_side "SELL" delta)
    | None => successes (order_outcomes delta) = []
    end.
Proof.
  intros env log0 symbol L U N q otype run delta. subst delta run.
  destruct (place_grid_orders_trace env log0 symbol L U N q otype)
    as [(Hr & _ & _ & _ & ->)
       | (prices & fq & P & dbuy & dsell & buy & sell & bo & so & Hprices & -> & Hbuy & Hsell
          & _ & ->)].
  - pose proof (requests_as_many_as_outcomes
                  (new_events log0 (snd (place_grid_orders symbol L U N q otype env log0))))
      as Hlen.
    rewrite Hr in Hlen.
    destruct (order_outcomes _); [reflexivity | discriminate Hlen].
  - destruct Hbuy as (Hb & Hrb & _). destruct Hsell as (Hs & Hrs & _).
    cbn [app] in Hb, Hs.
    destruct (one_sided_requests _ _ _ _ _ _ Hrb) as (_ & Hbb & Hbs).
    destruct (one_sided_requests _ _ _ _ _ _ Hrs) as (_ & Hss & Hsb).
    change (outcomes_of_side "BUY" (EvExchangeInfo (futures_exchange_info env log0)
                                      :: EvTicker symbol (inr P) :: dbuy ++ dsell))
      with (outcomes_of_side "BUY" (dbuy ++ dsell)).
    change (outcomes_of_side "SELL" (EvExchangeInfo (futures_exchange_info env log0)
                                       :: EvTicker symbol (inr P) :: dbuy ++ dsell))
      with (outcomes_of_side "SELL" (dbuy ++ dsell)).
    change (order_outcomes (EvExchangeInfo (futures_exchange_info env log0)
                              :: EvTicker symbol (inr P) :: dbuy ++ dsell))
      with (order_outcomes (dbuy ++ dsell)).
    rewrite !outcomes_of_side_app, order_outcomes_app, Hbb, Hss,
      (Hbs "SELL"%string eq_refl), (Hsb "BUY"%string eq_refl), app_nil_r.
    cbn [app]. rewrite successes_app, <- Hb, <- Hs.
    cbn [returned].
    unfold grid_result, grid_partial, grid_full.
    destruct (raises bo || raises so), buy, sell; cbn; try split; reflexivity.
Qed.

(** X18. A grid call stops at the first rejected order: no submission
    follows a rejected one, on either side.  The result of a call in which
    an order was rejected carries neither [total_buy_orders] nor
    [total_sell_orders]; a result that carries them reports the lengths of
    its two lists, and then every submitted order was accepted. *)
Theorem grid_stops_at_the_first_rejected_order :
  forall (env : Env) (log0 : Log) (symbol : string) (lower_price upper_price : float)
         (grid_levels : Z) (quantity_per_grid : float) (order_type : string),
    let run := place_grid_orders symbol lower_price upper_price grid_levels
                 quantity_per_grid order_type env log0 in
    let delta := new_events log0 (snd run) in
    stops_at_first_failure (order_outcomes delta) = true /\
    (forall result : GridResult,
       returned (fst run) = Some result ->
       (forallb accepted (order_outcomes delta) = false ->
        total_buy_orders result = None /\ total_sell_orders result = None) /\
       (total_buy_orders result <> None \/ total_sell_orders result <> None ->
        total_buy_orders result = Some (Z.of_nat (List.length (buy_orders result))) /\
        total_sell_orders result = Some (Z.of_nat (List.length (sell_orders result))) /\
        forallb accepted (order_outcomes delta) = true)).
Proof.
  intros env log0 symbol L U N q otype run delta. subst delta run.
  destruct (place_grid_orders_trace env log0 symbol L U N q otype)
    as [(Hr & _ & _ & _ & ->)
       | (prices & fq & P & dbuy & dsell & buy & sell & bo & so & Hprices & -> & Hbuy & Hsell
          & Hskip & ->)].
  - pose proof (requests_as_many_as_outcomes
                  (new_events log0 (snd (place_grid_orders symbol L U N q otype env log0))))
      as Hlen.
    rewrite Hr in Hlen.
    destruct (order_outcomes _); [| discriminate Hlen].
    split; [reflexivity | intros result H; discriminate H].
  - destruct Hbuy as (_ & _ & _ & Hfb & Hab & _).
    destruct Hsell as (_ & _ & _ & Hfs & Has & _).
    change (order_outcomes (EvExchangeInfo (futures_exchange_info env log0)
                              :: EvTicker symbol (inr P) :: dbuy ++ dsell))
      with (order_outcomes (dbuy ++ dsell)).
    rewrite order_outcomes_app. cbn [returned]. unfold grid_result.
    destruct bo as [u | e]; cbn [raises orb] in *.
    + specialize (Hab eq_refl). split; [now apply stops_at_first_failure_app |].
      rewrite forallb_app, Hab. cbn [andb].
      destruct so as [u' | e]; cbn [raises].
      * rewrite (Has eq_refl). intros result H. inversion H; subst; clear H.
        split; [discriminate |]. intros _. cbn. repeat split; reflexivity.
      * intros result H. unfold grid_partial in H.
        destruct buy, sell; inversion H; subst; clear H; cbn;
          (split; [intros _; split; reflexivity | intros [Hx | Hx]; contradiction]).
    + destruct (Hskip eq_refl) as [-> ->]. cbn [order_outcomes flat_map].
      rewrite app_nil_r. split; [exact Hfb |].
      intros result H. unfold grid_partial in H.
      destruct buy; inversion H; subst; clear H; cbn;
        (split; [intros _; split; reflexivity | intros [Hx | Hx]; contradiction]).
Qed.
